(** * Device lifecycle actions of the launcher (src/legacy/app/actions/deviceActions.js)

    A shallow embedding of the module's thunks as state-passing functions
    over an explicit [World]: the two module-level variables
    ([hotplugTaskId], [deviceSetupCallback]), the redux [device] slice read
    through [getState], the subscription table of the enumeration provider,
    the promises created by the module, and a chronological [trace] of
    everything observable (dispatched actions, logged errors, calls to the
    device library).  External collaborators (the application configuration,
    [prepareDevice], the device library, the redux store) are collected in
    an environment record [Env]. *)

From stdpp Require Import base option list strings gmap sets.

Set Default Proof Using "Type".

(** ** JavaScript values that reach the module *)

(** The user input of DEVICE_SETUP_INPUT_RECEIVED is documented as
    [Boolean|String]; [undefined] and [null] are what an absent input is. *)
Inductive JsValue : Type :=
| JsUndefined
| JsNull
| JsBool (b : bool)
| JsString (s : string).

(** JavaScript truthiness, as used by [!choice], [!!choice] and [if (choice)]. *)
Definition truthy (v : JsValue) : bool :=
  match v with
  | JsUndefined | JsNull => false
  | JsBool b => b
  | JsString s => negb (String.eqb s EmptyString)
  end.

(** An [Error] object; only its [message] is ever read by the module. *)
Record JsError : Type := Error { message : string }.

(** How a promise settles. *)
Inductive Settlement (A : Type) : Type :=
| Fulfilled (a : A)
| Rejected (e : JsError).
Arguments Fulfilled {A} a.
Arguments Rejected {A} e.

(** ** Devices *)

Record JLink : Type := { jl_boardVersion : option string }.

(** A device as enumerated by the device library.  [camelcaseKeys] only
    renames keys, which a typed record does not observe, so the raw record
    already carries the camel-cased field names. *)
Record RawDevice : Type := {
  raw_serialNumber : option string;
  raw_serialPorts : option (list string);
  raw_jlink : option JLink
}.

Record Device : Type := {
  serialNumber : option string;
  serialPorts : option (list string);
  jlink : option JLink;
  boardVersion : option string;
  serialport : option string
}.

(** [outputDevice.serialPorts ? outputDevice.serialPorts[0] : undefined]:
    an empty array is truthy and its element 0 is [undefined]. *)
Definition wrapDevice (device : RawDevice) : Device :=
  let serialport :=
    match raw_serialPorts device with
    | Some ports => head ports
    | None => None
    end in
  {| serialNumber := raw_serialNumber device;
     serialPorts := raw_serialPorts device;
     jlink := raw_jlink device;
     boardVersion :=
       match raw_jlink device with
       | Some j => jl_boardVersion j
       | None => None
       end;
     serialport := serialport |}.

Definition wrapDevices (devices : list RawDevice) : list Device :=
  map wrapDevice devices.

(** ** Actions *)

Inductive Action : Type :=
| DEVICE_SELECTED (device : Device)
| DEVICE_DESELECTED
| DEVICE_SETUP_COMPLETE (device : Device)
| DEVICE_SETUP_ERROR (device : Device) (error : JsError)
| DEVICE_SETUP_INPUT_REQUIRED (message : string) (choices : option (list string))
| DEVICE_SETUP_INPUT_RECEIVED (input : JsValue)
| DEVICES_DETECTED (devices : list Device).

Definition deviceSelectedAction (device : Device) : Action :=
  DEVICE_SELECTED device.
Definition deviceSetupErrorAction (device : Device) (error : JsError) : Action :=
  DEVICE_SETUP_ERROR device error.
Definition deviceSetupCompleteAction (device : Device) : Action :=
  DEVICE_SETUP_COMPLETE device.
Definition devicesDetectedAction (devices : list Device) : Action :=
  DEVICES_DETECTED devices.
Definition deviceSetupInputRequiredAction
    (message : string) (choices : option (list string)) : Action :=
  DEVICE_SETUP_INPUT_REQUIRED message choices.
Definition deviceSetupInputReceivedAction (input : JsValue) : Action :=
  DEVICE_SETUP_INPUT_RECEIVED input.
Definition deselectDevice : Action := DEVICE_DESELECTED.

(** ** The world *)

Abbreviation TaskId := nat (only parsing).
Abbreviation PromiseId := nat (only parsing).
Abbreviation Traits := (list string) (only parsing).

(** The closure stored in [deviceSetupCallback]: the only function ever
    assigned to it is the one built by [getDeviceSetupUserInput], which
    captures [choices] and the [resolve]/[reject] pair of one promise. *)
Record Callback : Type := {
  cb_choices : option (list string);
  cb_promise : PromiseId
}.

Inductive LibCall : Type :=
| Enumerate (traits : Traits)
| StartHotplugEvents (taskId : TaskId)
| StopHotplugEvents (taskId : option TaskId).

Inductive Event : Type :=
| Dispatched (a : Action)
| LoggedError (msg : string)
| Called (c : LibCall)
| ReleasedCurrentDevice.

(** An async function suspended at [await nrfDeviceLib.enumerate(...)]:
    either the body of [startWatchingDevices] or an [updateDeviceList]
    started by a hotplug callback. *)
Inductive PendingTask : Type :=
| AwaitingStart
| AwaitingHotplugUpdate.

(** The [device] slice of the redux state, as seen through [getState]. *)
Record DeviceState : Type := {
  selectedSerialNumber : option string;
  devices : list Device
}.

Record World : Type := {
  hotplugTaskId : option TaskId;
  deviceSetupCallback : option Callback;
  state : DeviceState;
  subscriptions : gset TaskId;
  nextTaskId : TaskId;
  promises : gmap PromiseId (option (Settlement JsValue));
  nextPromise : PromiseId;
  pending : list PendingTask;
  trace : list Event
}.

Definition set_hotplugTaskId (v : option TaskId) (w : World) : World :=
  {| hotplugTaskId := v; deviceSetupCallback := deviceSetupCallback w;
     state := state w; subscriptions := subscriptions w;
     nextTaskId := nextTaskId w; promises := promises w;
     nextPromise := nextPromise w; pending := pending w; trace := trace w |}.

Definition set_deviceSetupCallback (v : option Callback) (w : World) : World :=
  {| hotplugTaskId := hotplugTaskId w; deviceSetupCallback := v;
     state := state w; subscriptions := subscriptions w;
     nextTaskId := nextTaskId w; promises := promises w;
     nextPromise := nextPromise w; pending := pending w; trace := trace w |}.

Definition set_state (v : DeviceState) (w : World) : World :=
  {| hotplugTaskId := hotplugTaskId w;
     deviceSetupCallback := deviceSetupCallback w;
     state := v; subscriptions := subscriptions w;
     nextTaskId := nextTaskId w; promises := promises w;
     nextPromise := nextPromise w; pending := pending w; trace := trace w |}.

Definition set_lib (subs : gset TaskId) (next : TaskId) (w : World) : World :=
  {| hotplugTaskId := hotplugTaskId w;
     deviceSetupCallback := deviceSetupCallback w;
     state := state w; subscriptions := subs;
     nextTaskId := next; promises := promises w;
     nextPromise := nextPromise w; pending := pending w; trace := trace w |}.

Definition set_promises
    (ps : gmap PromiseId (option (Settlement JsValue))) (next : PromiseId)
    (w : World) : World :=
  {| hotplugTaskId := hotplugTaskId w;
     deviceSetupCallback := deviceSetupCallback w;
     state := state w; subscriptions := subscriptions w;
     nextTaskId := nextTaskId w; promises := ps;
     nextPromise := next; pending := pending w; trace := trace w |}.

Definition set_pending (v : list PendingTask) (w : World) : World :=
  {| hotplugTaskId := hotplugTaskId w;
     deviceSetupCallback := deviceSetupCallback w;
     state := state w; subscriptions := subscriptions w;
     nextTaskId := nextTaskId w; promises := promises w;
     nextPromise := nextPromise w; pending := v; trace := trace w |}.

Definition record (e : Event) (w : World) : World :=
  {| hotplugTaskId := hotplugTaskId w;
     deviceSetupCallback := deviceSetupCallback w;
     state := state w; subscriptions := subscriptions w;
     nextTaskId := nextTaskId w; promises := promises w;
     nextPromise := nextPromise w; pending := pending w;
     trace := trace w ++ [e] |}.

(** The world when the module has just been loaded. *)
Definition initialWorld : World :=
  {| hotplugTaskId := None; deviceSetupCallback := None;
     state := {| selectedSerialNumber := None; devices := [] |};
     subscriptions := ∅; nextTaskId := 0;
     promises := ∅; nextPromise := 0; pending := []; trace := [] |}.

(** ** Computations: state passing with exceptions and suspension *)

(** A call either returns, throws (an async function: its promise
    rejects), or stays suspended at an [await] whose promise is not settled
    by anything in the run. *)
Inductive Completion (A : Type) : Type :=
| Normal (a : A)
| Throw (e : JsError)
| Suspended.
Arguments Normal {A} a.
Arguments Throw {A} e.
Arguments Suspended {A}.

Definition M (A : Type) : Type := World → Completion A * World.

Definition throw {A} (e : JsError) : M A := λ w, (Throw e, w).
Definition suspend {A} : M A := λ w, (Suspended, w).

#[export] Instance M_ret : MRet M := λ A a w, (Normal a, w).

#[export] Instance M_bind : MBind M := λ A B k m w,
  match m w with
  | (Normal a, w') => k a w'
  | (Throw e, w') => (Throw e, w')
  | (Suspended, w') => (Suspended, w')
  end.

(** [try { body } catch (error) { handler }] *)
Definition try_catch {A} (body : M A) (handler : JsError → M A) : M A :=
  λ w, match body w with
       | (Throw e, w') => handler e w'
       | r => r
       end.

Definition get : M World := λ w, (Normal w, w).
Definition modify (f : World → World) : M unit := λ w, (Normal tt, f w).

(** [await p] for a promise whose settlement is known. *)
Definition await {A} (s : Settlement A) : M A :=
  match s with
  | Fulfilled a => mret a
  | Rejected e => throw e
  end.

(** ** External collaborators *)

(** What [prepareDevice] (pc-nrfconnect-shared) does with a device: it ends
    with the prepared device or an error, and on the way may call
    [promiseConfirm(message)] or [promiseChoice(message, choices)] and go on
    with how that promise settles.  Prompts are sequential: the procedure
    awaits one before it issues the next. *)
Inductive SetupProc : Type :=
| SetupDone (prepared : Device)
| SetupFail (error : JsError)
| SetupConfirm (message : string) (k : Settlement JsValue → SetupProc)
| SetupChoice (message : string) (choices : list string)
    (k : Settlement JsValue → SetupProc).

(** The function behind [promiseConfirm]/[promiseChoice]: the launcher's
    [getDeviceSetupUserInput(dispatch)], or one the application put into
    [config.deviceSetup] itself. *)
Inductive PromptHandler : Type :=
| LauncherPrompt
| AppPrompt (answer : string → option (list string) → Settlement JsValue).

(** [config.deviceSetup]: the keys this module defaults, each present or
    absent.  Its other keys (dfu, jprog, ...) are read by [prepareDevice]
    only and are part of [prepareDevice] below. *)
Record DeviceSetup : Type := {
  ds_promiseConfirm : option PromptHandler;
  ds_promiseChoice : option PromptHandler;
  ds_allowCustomDevice : option bool
}.

(** The object literal [deviceSetupConfig] after the spread. *)
Record DeviceSetupConfig : Type := {
  promiseConfirm : PromptHandler;
  promiseChoice : PromptHandler;
  allowCustomDevice : bool
}.

Record AppConfig : Type := {
  selectorTraits : Traits;
  deviceSetup : option DeviceSetup;
  (** [None]: not configured; otherwise how the returned promise settles *)
  releaseCurrentDevice : option (Settlement unit)
}.

Record Env : Type := {
  getAppConfig : AppConfig;
  (** truthiness of [getDeviceLibContext()] *)
  deviceLibContext : bool;
  prepareDevice : Device → DeviceSetupConfig → SetupProc;
  (** [nrfDeviceLib.startHotplugEvents] throwing, if it does *)
  startHotplugEventsError : option JsError;
  (** what [nrfDeviceLib.stopHotplugEvents] throws when its argument is not
      an active task id ([None]: it returns silently) *)
  stopHotplugEventsError : option JsError;
  (** what the store's [dispatch] throws when given [undefined]
      ([None]: it accepts it and does nothing) *)
  dispatchUndefinedError : option JsError
}.

(** ** The redux store *)

(** Modelled from the spec: the reducer of the [device] slice is not part
    of the sources; section 4.1 gives it: select sets the selected serial
    id, deselect clears it unconditionally, an enumeration replaces the
    detected devices. *)
Definition reducer (s : DeviceState) (a : Action) : DeviceState :=
  match a with
  | DEVICE_SELECTED device =>
      {| selectedSerialNumber := serialNumber device; devices := devices s |}
  | DEVICE_DESELECTED =>
      {| selectedSerialNumber := None; devices := devices s |}
  | DEVICES_DETECTED ds =>
      {| selectedSerialNumber := selectedSerialNumber s; devices := ds |}
  | _ => s
  end.

(** What is handed to [dispatch]: an action object, a thunk (run by the
    thunk middleware with [dispatch] and [getState]), or [undefined]. *)
Inductive Dispatchable : Type :=
| Plain (a : Action)
| Thunk (t : M unit)
| Undefined.

Definition dispatch (env : Env) (d : Dispatchable) : M unit :=
  match d with
  | Plain a =>
      modify (λ w, set_state (reducer (state w) a) (record (Dispatched a) w))
  | Thunk t => t
  | Undefined =>
      match dispatchUndefinedError env with
      | Some e => throw e
      | None => mret tt
      end
  end.

Definition logger_error (msg : string) : M unit :=
  modify (record (LoggedError msg)).

(** ** The device library *)

(** Modelled from the spec: the enumeration provider's subscription table
    (section 6: subscribeHotplug returns a handle, unsubscribe takes it). *)
Definition startHotplugEvents (env : Env) : M TaskId :=
  match startHotplugEventsError env with
  | Some e => throw e
  | None =>
      λ w, let id := nextTaskId w in
           (Normal id,
            record (Called (StartHotplugEvents id))
              (set_lib ({[id]} ∪ subscriptions w) (S id) w))
  end.

Definition stopHotplugEvents (env : Env) (taskId : option TaskId) : M unit :=
  modify (record (Called (StopHotplugEvents taskId))) ;;
  w ← get;
  match taskId with
  | Some id =>
      if decide (id ∈ subscriptions w)
      then modify (set_lib (subscriptions w ∖ {[id]}) (nextTaskId w))
      else match stopHotplugEventsError env with
           | Some e => throw e
           | None => mret tt
           end
  | None =>
      match stopHotplugEventsError env with
      | Some e => throw e
      | None => mret tt
      end
  end.

(** [nrfDeviceLib.enumerate(deviceLibContext, getAppConfig().selectorTraits)]:
    the call is issued; its promise settles later, see [enumerationSettled]. *)
Definition enumerate (env : Env) : M unit :=
  modify (record (Called (Enumerate (selectorTraits (getAppConfig env))))).

(** ** Watching *)

(** undefined prints as such in a template string *)
Definition template (s : option string) : string :=
  default "undefined" s.

(** The body of [updateDeviceList] after its [await]: [r] is how the
    promise of [enumerate] settled. *)
Definition updateDeviceList (env : Env)
    (r : Settlement (list RawDevice)) : M unit :=
  raw ← await r;
  let devices := wrapDevices raw in
  w ← get;
  let device := state w in
  (match selectedSerialNumber device with
   | Some selected =>
       if bool_decide
            (Exists (λ d, serialNumber d = Some selected) devices)
       then mret tt
       else dispatch env (Plain deselectDevice)
   | None => mret tt
   end) ;;
  dispatch env (Plain (devicesDetectedAction devices)).

(** [startWatchingDevices()] as run by [dispatch]: the thunk runs up to
    [await nrfDeviceLib.enumerate(...)] inside [updateDeviceList] and
    returns its promise, which nothing in the module awaits. *)
Definition startWatchingDevices (env : Env) : M unit :=
  enumerate env ;;
  modify (λ w, set_pending (pending w ++ [AwaitingStart]) w).

(** The rest of [startWatchingDevices] once the enumeration settled. *)
Definition startWatchingDevices_resume (env : Env)
    (r : Settlement (list RawDevice)) : M unit :=
  try_catch
    (updateDeviceList env r ;;
     id ← startHotplugEvents env;
     modify (set_hotplugTaskId (Some id)))
    (λ error,
       logger_error ("Error while probing devices: " +:+ message error)).

(** The device library invokes the callback [updateDeviceList] of an
    active subscription. *)
Definition hotplugEvent (env : Env) (taskId : TaskId) : M unit :=
  w ← get;
  if decide (taskId ∈ subscriptions w)
  then enumerate env ;;
       modify (λ w, set_pending (pending w ++ [AwaitingHotplugUpdate]) w)
  else mret tt.

(** The oldest outstanding enumeration settles with [r] and the async
    function awaiting it goes on.  An [updateDeviceList] run as a hotplug
    callback has no handler around it. *)
Definition enumerationSettled (env : Env)
    (r : Settlement (list RawDevice)) : M unit :=
  w ← get;
  match pending w with
  | [] => mret tt
  | task :: rest =>
      modify (set_pending rest) ;;
      match task with
      | AwaitingStart => startWatchingDevices_resume env r
      | AwaitingHotplugUpdate => updateDeviceList env r
      end
  end.

Definition stopWatchingDevices (env : Env) : M unit :=
  if deviceLibContext env
  then try_catch
         (w ← get; stopHotplugEvents env (hotplugTaskId w))
         (λ error,
            logger_error
              ("Error while stop watching devices: " +:+ message error))
  else mret tt.

(** ** Promises and the input callback *)

(** [new Promise(...)]: a fresh, unsettled promise. *)
Definition newPromise : M PromiseId :=
  λ w, let p := nextPromise w in
       (Normal p, set_promises (<[p := None]> (promises w)) (S p) w).

(** [resolve(v)] / [reject(e)]: settling a promise that is already settled
    does nothing. *)
Definition settle (p : PromiseId) (s : Settlement JsValue) : M unit :=
  modify (λ w,
    match promises w !! p with
    | Some None => set_promises (<[p := Some s]> (promises w)) (nextPromise w) w
    | _ => w
    end).

(** [await] on one of the module's promises: the caller goes on when the
    promise is settled and stays suspended when it is not. *)
Definition awaitPromise (p : PromiseId) : M JsValue :=
  w ← get;
  match promises w !! p with
  | Some (Some s) => await s
  | _ => suspend
  end.

(** The arrow function [choice => { ... }] assigned to
    [deviceSetupCallback], applied to [choice]. *)
Definition callback (cb : Callback) (choice : JsValue) : M unit :=
  match cb_choices cb with
  | None =>
      (* for confirmation resolve with boolean *)
      settle (cb_promise cb) (Fulfilled (JsBool (truthy choice)))
  | Some _ =>
      if truthy choice
      then settle (cb_promise cb) (Fulfilled choice)
      else settle (cb_promise cb) (Rejected (Error "Cancelled by user."))
  end.

Definition getDeviceSetupUserInput (env : Env)
    (message : string) (choices : option (list string)) : M PromiseId :=
  p ← newPromise;
  modify (set_deviceSetupCallback
            (Some {| cb_choices := choices; cb_promise := p |})) ;;
  dispatch env (Plain (deviceSetupInputRequiredAction message choices)) ;;
  mret p.

Definition deviceSetupInputReceived (env : Env) (input : JsValue) : M unit :=
  dispatch env (Plain (deviceSetupInputReceivedAction input)) ;;
  w ← get;
  match deviceSetupCallback w with
  | Some cb =>
      callback cb input ;;
      modify (set_deviceSetupCallback None)
  | None =>
      logger_error "Received device setup input, but no callback exists."
  end.

(** ** Selecting and setting up a device *)

(** [{ promiseConfirm: ..., promiseChoice: ..., allowCustomDevice: false,
       ...config.deviceSetup }] *)
Definition deviceSetupConfig (ds : DeviceSetup) : DeviceSetupConfig :=
  {| promiseConfirm := default LauncherPrompt (ds_promiseConfirm ds);
     promiseChoice := default LauncherPrompt (ds_promiseChoice ds);
     allowCustomDevice := default false (ds_allowCustomDevice ds) |}.

(** One prompt of the setup procedure.  With the launcher's handler the
    promise is settled by the user: the next element of [inputs] is what the
    user interface dispatches through [deviceSetupInputReceived] in answer
    to DEVICE_SETUP_INPUT_REQUIRED; once [inputs] is used up nobody answers
    and the procedure stays suspended. *)
Definition prompt (env : Env) (handler : PromptHandler)
    (message : string) (choices : option (list string))
    (inputs : list JsValue) : M (Settlement JsValue * list JsValue) :=
  match handler with
  | AppPrompt answer => mret (answer message choices, inputs)
  | LauncherPrompt =>
      p ← getDeviceSetupUserInput env message choices;
      match inputs with
      | [] => suspend
      | input :: rest =>
          deviceSetupInputReceived env input ;;
          try_catch
            (v ← awaitPromise p; mret (Fulfilled v, rest))
            (λ e, mret (Rejected e, rest))
      end
  end.

(** [await prepareDevice(device, deviceSetupConfig)], the user answering
    the launcher's prompts with [inputs] in order. *)
Fixpoint runSetup (env : Env) (config : DeviceSetupConfig)
    (proc : SetupProc) (inputs : list JsValue) : M Device :=
  match proc with
  | SetupDone prepared => mret prepared
  | SetupFail error => throw error
  | SetupConfirm message k =>
      '(s, rest) ← prompt env (promiseConfirm config) message None inputs;
      runSetup env config (k s) rest
  | SetupChoice message choices k =>
      '(s, rest) ← prompt env (promiseChoice config) message (Some choices)
                     inputs;
      runSetup env config (k s) rest
  end.

Definition selectAndSetupDevice (env : Env) (device : Device)
    (inputs : list JsValue) : M unit :=
  dispatch env (Plain (deviceSelectedAction device)) ;;
  let config := getAppConfig env in
  match deviceSetup config with
  | Some setup =>
      (* dispatch(stopWatchingDevices()): the call is made first and
         returns undefined, which is what dispatch is given *)
      stopWatchingDevices env ;;
      dispatch env Undefined ;;
      match releaseCurrentDevice config with
      | Some released =>
          modify (record ReleasedCurrentDevice) ;; await released
      | None => mret tt
      end ;;
      let deviceSetupConfig := deviceSetupConfig setup in
      try_catch
        (preparedDevice ←
           runSetup env deviceSetupConfig
             (prepareDevice env device deviceSetupConfig) inputs;
         dispatch env (Thunk (startWatchingDevices env)) ;;
         dispatch env (Plain (deviceSetupCompleteAction preparedDevice)))
        (λ error,
           dispatch env (Plain (deviceSetupErrorAction device error)) ;;
           (if negb (allowCustomDevice deviceSetupConfig)
            then logger_error
                   ("Error while setting up device "
                    +:+ template (serialNumber device)
                    +:+ ": " +:+ message error) ;;
                 dispatch env (Plain deselectDevice)
            else mret tt) ;;
           dispatch env (Thunk (startWatchingDevices env)))
  | None => mret tt
  end.

(** ** What an observer sees *)

(** The notifications emitted so far: the actions that reached the store,
    in order. *)
Definition notifications (w : World) : list Action :=
  omap (λ e, match e with Dispatched a => Some a | _ => None end) (trace w).

(** The errors logged so far. *)
Definition logged (w : World) : list string :=
  omap (λ e, match e with LoggedError m => Some m | _ => None end) (trace w).

(** The calls made to the device library so far. *)
Definition libCalls (w : World) : list LibCall :=
  omap (λ e, match e with Called c => Some c | _ => None end) (trace w).

(** The promise of an async call is settled: it returned or threw. *)
Definition settled {A} (c : Completion A) : bool :=
  match c with
  | Suspended => false
  | _ => true
  end.

(** What a computation does not touch of the watcher. *)
Definition sameWatcher (w w' : World) : Prop :=
  pending w' = pending w
  ∧ subscriptions w' = subscriptions w
  ∧ nextTaskId w' = nextTaskId w
  ∧ hotplugTaskId w' = hotplugTaskId w
  ∧ libCalls w' = libCalls w.

(** ** The two parts of [selectAndSetupDevice] *)

(** The run up to the [try] of [selectAndSetupDevice] when a setup
    procedure is configured; the world it ends in is the one in which
    [prepareDevice] is called. *)
Definition beforeSetup (env : Env) (device : Device) : M unit :=
  dispatch env (Plain (deviceSelectedAction device)) ;;
  stopWatchingDevices env ;;
  dispatch env Undefined ;;
  match releaseCurrentDevice (getAppConfig env) with
  | Some released => modify (record ReleasedCurrentDevice) ;; await released
  | None => mret tt
  end.

(** The [try]/[catch] statement of [selectAndSetupDevice]. *)
Definition trySetup (env : Env) (device : Device)
    (config : DeviceSetupConfig) (inputs : list JsValue) : M unit :=
  try_catch
    (preparedDevice ←
       runSetup env config (prepareDevice env device config) inputs;
     dispatch env (Thunk (startWatchingDevices env)) ;;
     dispatch env (Plain (deviceSetupCompleteAction preparedDevice)))
    (λ error,
       dispatch env (Plain (deviceSetupErrorAction device error)) ;;
       (if negb (allowCustomDevice config)
        then logger_error
               ("Error while setting up device "
                +:+ template (serialNumber device)
                +:+ ": " +:+ message error) ;;
             dispatch env (Plain deselectDevice)
        else mret tt) ;;
       dispatch env (Thunk (startWatchingDevices env))).

(** ** Scenarios *)

Module Scenario.

Definition rawA : RawDevice :=
  {| raw_serialNumber := Some "A";
     raw_serialPorts := Some ["COM1"; "COM2"];
     raw_jlink := Some {| jl_boardVersion := Some "PCA10040" |} |}.

Definition rawB : RawDevice :=
  {| raw_serialNumber := Some "B"; raw_serialPorts := None;
     raw_jlink := None |}.

Definition deviceA : Device := wrapDevice rawA.
Definition deviceB : Device := wrapDevice rawB.

(** An application with a setup procedure [proc], a release step settling
    as [release] and [allowCustomDevice] as given. *)
Definition appWith (proc : SetupProc) (release : option (Settlement unit))
    (allow : option bool) : Env :=
  {| getAppConfig :=
       {| selectorTraits := ["jlink"];
          deviceSetup := Some {| ds_promiseConfirm := None;
                                 ds_promiseChoice := None;
                                 ds_allowCustomDevice := allow |};
          releaseCurrentDevice := release |};
     deviceLibContext := true;
     prepareDevice := λ _ _, proc;
     startHotplugEventsError := None;
     stopHotplugEventsError := Some (Error "Invalid task id");
     dispatchUndefinedError := None |}.

(** An application without a setup procedure. *)
Definition appWithoutSetup : Env :=
  {| getAppConfig :=
       {| selectorTraits := ["jlink"]; deviceSetup := None;
          releaseCurrentDevice := None |};
     deviceLibContext := true;
     prepareDevice := λ device _, SetupDone device;
     startHotplugEventsError := None;
     stopHotplugEventsError := Some (Error "Invalid task id");
     dispatchUndefinedError := None |}.

Definition flashFails : SetupProc := SetupFail (Error "flash failed").

Definition pickMode : SetupProc :=
  SetupChoice "Pick mode" ["DFU"; "Normal"]
    (λ s, match s with
          | Fulfilled _ => SetupDone deviceA
          | Rejected e => SetupFail e
          end).

Definition busy : Env :=
  appWith (SetupDone deviceA) (Some (Rejected (Error "busy"))) None.

Definition failing : Env := appWith flashFails None None.

(** The watcher was started, A and B were detected, A is selected. *)
Definition watchingA : World :=
  ((startWatchingDevices appWithoutSetup ;;
    enumerationSettled appWithoutSetup (Fulfilled [rawA; rawB]) ;;
    dispatch appWithoutSetup (Plain (deviceSelectedAction deviceA)))
     initialWorld).2.

(** Two starts in a row, both enumerations succeeding. *)
Definition startedTwice : World :=
  ((startWatchingDevices appWithoutSetup ;;
    enumerationSettled appWithoutSetup (Fulfilled [rawA]) ;;
    startWatchingDevices appWithoutSetup ;;
    enumerationSettled appWithoutSetup (Fulfilled [rawA]))
     initialWorld).2.

(** A confirmation was requested and is pending. *)
Definition askedToConfirm : World :=
  (getDeviceSetupUserInput appWithoutSetup "Erase device?" None
     initialWorld).2.

(** A choice was requested and is pending. *)
Definition askedToChoose : World :=
  (getDeviceSetupUserInput appWithoutSetup "Pick mode"
     (Some ["DFU"; "Normal"]) initialWorld).2.

(** The world in which the setup procedure of [failing] is called. *)
Definition pausedA : World := (beforeSetup failing deviceA initialWorld).2.

End Scenario.

(** The world right after [getDeviceSetupUserInput(dispatch)(message,
    choices)] was called in [w]: a new unsettled promise, its callback in
    the slot, DEVICE_SETUP_INPUT_REQUIRED dispatched. *)
Definition requested (message : string) (choices : option (list string))
    (w : World) : World :=
  set_state (state w)
    (record (Dispatched (DEVICE_SETUP_INPUT_REQUIRED message choices))
       (set_deviceSetupCallback
          (Some {| cb_choices := choices; cb_promise := nextPromise w |})
          (set_promises (<[nextPromise w := None]> (promises w))
             (S (nextPromise w)) w))).

(** The slot and the promises agree: a callback in the slot settles a
    promise that is still unsettled. *)
Definition slotPending (w : World) : Prop :=
  ∀ cb, deviceSetupCallback w = Some cb →
        promises w !! cb_promise cb = Some None.

(** ** The setup procedure read by its answers alone *)

(** How one input settles a request made with [choices], written without
    the world. *)
Definition answer (choices : option (list string)) (input : JsValue)
    : Settlement JsValue :=
  match choices with
  | None => Fulfilled (JsBool (truthy input))
  | Some _ =>
      if truthy input then Fulfilled input
      else Rejected (Error "Cancelled by user.")
  end.

(** How a setup procedure ends when the user answers the launcher's
    prompts with [inputs] in order, written without the world. *)
Fixpoint setupOutcome (config : DeviceSetupConfig) (proc : SetupProc)
    (inputs : list JsValue) : Completion Device :=
  match proc with
  | SetupDone prepared => Normal prepared
  | SetupFail error => Throw error
  | SetupConfirm message k =>
      match promiseConfirm config with
      | AppPrompt f => setupOutcome config (k (f message None)) inputs
      | LauncherPrompt =>
          match inputs with
          | [] => Suspended
          | input :: rest => setupOutcome config (k (answer None input)) rest
          end
      end
  | SetupChoice message choices k =>
      match promiseChoice config with
      | AppPrompt f =>
          setupOutcome config (k (f message (Some choices))) inputs
      | LauncherPrompt =>
          match inputs with
          | [] => Suspended
          | input :: rest =>
              setupOutcome config (k (answer (Some choices) input)) rest
          end
      end
  end.

(** ** The main process (src/unnamed/part_000) *)

Module Main.

(** [path.resolve] and [fs.existsSync] are Node's; they are parameters
    here.  [process.env] is an object used as a map from names to
    strings. *)

(** Truthiness of a string: [if (s)], [s ? a : b]. *)
Definition truthyString (s : string) : bool :=
  negb (String.eqb s EmptyString).

(** The array literal searched for the nrfjprog libraries, in order. *)
Definition candidates (resolve : string → string → string)
    (execPath cwd : string) : list string :=
  [resolve execPath "../nrfjprog";
   resolve execPath "../../Frameworks/nrfjprog";
   resolve cwd "nrfjprog";
   resolve cwd "node_modules/pc-nrfjprog-js/nrfjprog"].

(** [[...].find(existsSync)] *)
Definition nRFjprogSearchPath (resolve : string → string → string)
    (existsSync : string → bool) (execPath cwd : string) : option string :=
  List.find existsSync (candidates resolve execPath cwd).

(** The [if (nRFjprogSearchPath) { ... }] statement, on [process.env]. *)
Definition setLibraryPath (resolve : string → string → string)
    (existsSync : string → bool) (execPath cwd : string)
    (env : gmap string string) : gmap string string :=
  match nRFjprogSearchPath resolve existsSync execPath cwd with
  | Some path =>
      if truthyString path
      then
        let env1 := <["NRFJPROG_LIBRARY_PATH" := path]> env in
        let original :=
          match env1 !! "LD_LIBRARY_PATH" with
          | Some ld => if truthyString ld then ":" +:+ ld else EmptyString
          | None => EmptyString
          end in
        <["LD_LIBRARY_PATH" := path +:+ original]> env1
      else env
  | None => env
  end.

(** What [config] answers at start-up; an empty name is falsy like an
    absent one. *)
Record StartConfig : Type := {
  getOfficialAppName : option string;
  getSourceName : option string;
  getLocalAppName : option string
}.

Inductive MainEvent : Type :=
| HandledDevtoolsRequest
| SetApplicationMenu
| InitAppsDirectory
| OpenOfficialAppWindow (name : string) (source : option string)
| OpenLocalAppWindow (name : string)
| OpenLauncherWindow
| ShowErrorBox (detail : string).

Definition named (name : option string) : option string :=
  match name with
  | Some n => if truthyString n then Some n else None
  | None => None
  end.

(** The window the [then] callback opens. *)
Definition windowToOpen (config : StartConfig) : MainEvent :=
  match named (getOfficialAppName config) with
  | Some name => OpenOfficialAppWindow name (getSourceName config)
  | None =>
      match named (getLocalAppName config) with
      | Some name => OpenLocalAppWindow name
      | None => OpenLauncherWindow
      end
  end.

(** The handler of the application's [ready] event, given how the promise
    of [apps.initAppsDirectory()] and the promise of the window opened
    settle: [initAppsDirectory().then(...).catch(...)]. *)
Definition onReady (config : StartConfig)
    (initialised opened : Settlement unit) : list MainEvent :=
  [HandledDevtoolsRequest; SetApplicationMenu; InitAppsDirectory] ++
  match initialised with
  | Fulfilled _ =>
      windowToOpen config ::
      match opened with
      | Fulfilled _ => []
      | Rejected error => [ShowErrorBox (message error)]
      end
  | Rejected error => [ShowErrorBox (message error)]
  end.

Definition isWindow (e : MainEvent) : bool :=
  match e with
  | OpenOfficialAppWindow _ _ | OpenLocalAppWindow _ | OpenLauncherWindow =>
      true
  | _ => false
  end.

Definition isErrorBox (e : MainEvent) : bool :=
  match e with
  | ShowErrorBox _ => true
  | _ => false
  end.

End Main.

(** ** More scenarios *)

Module More.

(** An application whose device library refuses to start hotplug
    events. *)
Definition refusing : Env :=
  {| getAppConfig :=
       {| selectorTraits := ["jlink"]; deviceSetup := None;
          releaseCurrentDevice := None |};
     deviceLibContext := true;
     prepareDevice := λ device _, SetupDone device;
     startHotplugEventsError := Some (Error "No hotplug support");
     stopHotplugEventsError := Some (Error "Invalid task id");
     dispatchUndefinedError := None |}.

(** An application with a setup procedure whose store throws when it is
    given [undefined], as a redux store without further middleware
    does. *)
Definition strictStore : Env :=
  {| getAppConfig :=
       {| selectorTraits := ["jlink"];
          deviceSetup := Some {| ds_promiseConfirm := None;
                                 ds_promiseChoice := None;
                                 ds_allowCustomDevice := None |};
          releaseCurrentDevice := None |};
     deviceLibContext := true;
     prepareDevice := λ device _, SetupDone device;
     startHotplugEventsError := None;
     stopHotplugEventsError := Some (Error "Invalid task id");
     dispatchUndefinedError := Some (Error "Actions must be plain objects.") |}.

(** An application whose setup procedure returns the device at once. *)
Definition ready : Env :=
  Scenario.appWith (SetupDone Scenario.deviceA) None None.

(** The world in which the setup procedure of [ready] is called. *)
Definition pausedReady : World :=
  (beforeSetup ready Scenario.deviceA Scenario.watchingA).2.

(** [path.resolve] on paths that need no normalising. *)
Definition join (from to : string) : string := from +:+ "/" +:+ to.

(** A packaged application on macOS: only the Frameworks directory has
    the libraries. *)
Definition inFrameworks (path : string) : bool :=
  String.eqb path "/app/bin/../../Frameworks/nrfjprog".

Definition nowhere (path : string) : bool := false.

Definition shellEnv : gmap string string :=
  {[ "LD_LIBRARY_PATH" := "/usr/lib"; "HOME" := "/home/user" ]}.

End More.

(** * Proofs *)

Ltac unfold_js :=
  unfold deviceSetupInputReceived, getDeviceSetupUserInput, callback,
    awaitPromise, settle, newPromise, stopWatchingDevices,
    enumerationSettled, hotplugEvent, startWatchingDevices_resume,
    startWatchingDevices, updateDeviceList, enumerate, stopHotplugEvents,
    startHotplugEvents, logger_error, dispatch, await, try_catch, modify,
    get, throw, suspend, mbind, M_bind, mret, M_ret in *.

Ltac run := unfold_js; simpl in *.

(** Reading the notifications and the log off an extended trace. *)
Ltac observe :=
  unfold notifications, logged in *; simpl in *;
  rewrite ?omap_app; simpl; rewrite ?app_nil_r.

Lemma bind_normal {A B} (m : M A) (k : A → M B) w a w' :
  m w = (Normal a, w') → (m ≫= k) w = k a w'.
Proof. intros H. unfold mbind, M_bind. by rewrite H. Qed.

Lemma bind_throw {A B} (m : M A) (k : A → M B) w e w' :
  m w = (Throw e, w') → (m ≫= k) w = (Throw e, w').
Proof. intros H. unfold mbind, M_bind. by rewrite H. Qed.

Lemma bind_suspended {A B} (m : M A) (k : A → M B) w w' :
  m w = (Suspended, w') → (m ≫= k) w = (Suspended, w').
Proof. intros H. unfold mbind, M_bind. by rewrite H. Qed.

Lemma sameWatcher_refl w : sameWatcher w w.
Proof. by repeat split. Qed.

Lemma sameWatcher_trans w1 w2 w3 :
  sameWatcher w1 w2 → sameWatcher w2 w3 → sameWatcher w1 w3.
Proof.
  intros (? & ? & ? & ? & ?) (? & ? & ? & ? & ?).
  repeat split; congruence.
Qed.

Section Launcher.

Context (env : Env).

(** ** Dispatching and stopping *)

Lemma dispatch_plain a w :
  dispatch env (Plain a) w
  = (Normal tt, set_state (reducer (state w) a) (record (Dispatched a) w)).
Proof. reflexivity. Qed.

(** [stopWatchingDevices] never throws: whatever the library does is
    caught and logged. *)
Lemma stopWatchingDevices_returns w :
  ∃ w', stopWatchingDevices env w = (Normal tt, w')
        ∧ notifications w' = notifications w
        ∧ state w' = state w
        ∧ deviceSetupCallback w' = deviceSetupCallback w
        ∧ hotplugTaskId w' = hotplugTaskId w
        ∧ promises w' = promises w
        ∧ nextPromise w' = nextPromise w
        ∧ pending w' = pending w
        ∧ subscriptions w' ⊆ subscriptions w.
Proof.
  run. destruct (deviceLibContext env); [| by eexists].
  destruct (hotplugTaskId w) as [id|] eqn:Hid; simpl;
    [destruct (decide (id ∈ subscriptions w)); simpl |];
    try destruct (stopHotplugEventsError env); simpl;
    (eexists; split; [done|]); observe; repeat split; try done.
  all: by apply subseteq_difference_l.
Qed.


(** ** Applying an enumeration and starting *)

(** Applying a successful enumeration only dispatches. *)
Lemma updateDeviceList_fulfilled raw w :
  ∃ w', updateDeviceList env (Fulfilled raw) w = (Normal tt, w')
        ∧ libCalls w' = libCalls w
        ∧ logged w' = logged w
        ∧ hotplugTaskId w' = hotplugTaskId w
        ∧ subscriptions w' = subscriptions w
        ∧ nextTaskId w' = nextTaskId w
        ∧ pending w' = pending w
        ∧ deviceSetupCallback w' = deviceSetupCallback w
        ∧ promises w' = promises w.
Proof.
  run. destruct (selectedSerialNumber (state w)); simpl;
    [case_bool_decide; simpl|];
    (eexists; split; [done|]); unfold libCalls; observe; done.
Qed.

(** A rejected enumeration makes [updateDeviceList] throw at once. *)
Lemma updateDeviceList_rejected e w :
  updateDeviceList env (Rejected e) w = (Throw e, w).
Proof. reflexivity. Qed.

(** C4: when an enumeration result [R] is applied by [updateDeviceList]:
    if a serial number is selected and no device of [R] has it,
    DEVICE_DESELECTED is emitted and right after it DEVICES_DETECTED with
    [R]; if the selected device is in [R], or nothing is selected, only
    DEVICES_DETECTED with [R] is emitted. *)
Theorem updateDeviceList_deselects_first
    (raw : list RawDevice) (w : World) :
  let R := wrapDevices raw in
  ∃ w', updateDeviceList env (Fulfilled raw) w = (Normal tt, w')
    ∧ (∀ selected,
         selectedSerialNumber (state w) = Some selected →
         (∀ d, d ∈ R → serialNumber d ≠ Some selected) →
         trace w' = trace w ++ [Dispatched DEVICE_DESELECTED;
                                Dispatched (DEVICES_DETECTED R)])
    ∧ (selectedSerialNumber (state w) = None
       ∨ (∃ selected d, selectedSerialNumber (state w) = Some selected
                        ∧ d ∈ R ∧ serialNumber d = Some selected) →
       trace w' = trace w ++ [Dispatched (DEVICES_DETECTED R)]).
Proof.
  intros R. run. fold R.
  destruct (selectedSerialNumber (state w)) as [sel|] eqn:Hsel; simpl.
  - case_bool_decide as Hex; simpl.
    + eexists; split; [done|]. simpl. split.
      * intros selected [= <-] Hnone.
        apply Exists_exists in Hex as (d & Hd & Heq). by destruct (Hnone d).
      * done.
    + eexists; split; [done|]. simpl. split.
      * intros _ _ _. by rewrite <- app_assoc.
      * intros [? | (selected & d & [= <-] & Hd & Heq)]; [done|].
        destruct Hex. apply Exists_exists. eauto.
  - eexists; split; [done|]. simpl. split; [done|]. done.
Qed.

(** Once its enumeration is fulfilled, [startWatchingDevices] registers a
    new subscription and stores its task id. *)
Lemma startWatchingDevices_resume_fulfilled raw w :
  startHotplugEventsError env = None →
  ∃ w', startWatchingDevices_resume env (Fulfilled raw) w = (Normal tt, w')
        ∧ hotplugTaskId w' = Some (nextTaskId w)
        ∧ subscriptions w' = {[nextTaskId w]} ∪ subscriptions w
        ∧ nextTaskId w' = S (nextTaskId w)
        ∧ libCalls w' = libCalls w ++ [StartHotplugEvents (nextTaskId w)]
        ∧ logged w' = logged w
        ∧ pending w' = pending w.
Proof.
  intros Hstart.
  destruct (updateDeviceList_fulfilled raw w)
    as (w1 & Hrun & Hcalls & Hlog & Hid & Hsubs & Hnext & Hpend & _).
  unfold startWatchingDevices_resume, try_catch.
  rewrite (bind_normal _ _ _ _ _ Hrun).
  unfold startHotplugEvents. rewrite Hstart. run.
  eexists; split; [done|]. unfold libCalls in *. observe.
  rewrite Hcalls, Hlog, Hsubs, Hnext, Hpend. done.
Qed.

(** When the enumeration is rejected the error is logged and no
    subscription is made: the watcher stays stopped. *)
Lemma startWatchingDevices_resume_rejected e w :
  startWatchingDevices_resume env (Rejected e) w
  = (Normal tt,
     record (LoggedError ("Error while probing devices: " +:+ message e)) w).
Proof. reflexivity. Qed.

(** A start whose enumeration is the only one outstanding and is then
    fulfilled. *)
Lemma startWatchingDevices_completes raw w :
  startHotplugEventsError env = None →
  pending w = [] →
  ∃ w', (startWatchingDevices env ;;
         enumerationSettled env (Fulfilled raw)) w = (Normal tt, w')
        ∧ hotplugTaskId w' = Some (nextTaskId w)
        ∧ subscriptions w' = {[nextTaskId w]} ∪ subscriptions w
        ∧ nextTaskId w' = S (nextTaskId w)
        ∧ libCalls w' = libCalls w ++
            [Enumerate (selectorTraits (getAppConfig env));
             StartHotplugEvents (nextTaskId w)]
        ∧ pending w' = [].
Proof.
  intros Hstart Hpend.
  unfold startWatchingDevices, enumerationSettled, enumerate.
  unfold mbind at 1 2 3 4, M_bind, modify, get. simpl. rewrite Hpend. simpl.
  match goal with
  | |- context [startWatchingDevices_resume env (Fulfilled raw) ?w0] =>
      destruct (startWatchingDevices_resume_fulfilled raw w0 Hstart)
        as (w' & Hrun & Hid & Hsubs & Hnext & Hcalls & _ & Hp)
  end.
  exists w'. split; [done|]. unfold libCalls in *. simpl in *.
  rewrite Hid, Hsubs, Hnext, Hcalls, Hp. observe.
  rewrite <- app_assoc. done.
Qed.

(** C3 as the code has it: [startWatchingDevices] never stops anything.
    Two consecutive starts whose enumerations succeed, with no stop in
    between, each register a new subscription: afterwards both are active
    next to whatever was active before, the library was asked to enumerate
    and to start twice and never to stop, and only the second task id is
    kept in [hotplugTaskId]. *)
Theorem startWatchingDevices_twice
    (raw1 raw2 : list RawDevice) (w : World) :
  startHotplugEventsError env = None →
  pending w = [] →
  let n := nextTaskId w in
  let traits := selectorTraits (getAppConfig env) in
  ∃ w', (startWatchingDevices env ;;
         enumerationSettled env (Fulfilled raw1) ;;
         startWatchingDevices env ;;
         enumerationSettled env (Fulfilled raw2)) w = (Normal tt, w')
        ∧ subscriptions w' = {[S n]} ∪ ({[n]} ∪ subscriptions w)
        ∧ n ∈ subscriptions w' ∧ S n ∈ subscriptions w' ∧ n ≠ S n
        ∧ hotplugTaskId w' = Some (S n)
        ∧ libCalls w' = libCalls w ++
            [Enumerate traits; StartHotplugEvents n;
             Enumerate traits; StartHotplugEvents (S n)].
Proof.
  intros Hstart Hpend n traits.
  destruct (startWatchingDevices_completes raw1 w Hstart Hpend)
    as (w1 & Hrun1 & Hid1 & Hsubs1 & Hnext1 & Hcalls1 & Hpend1).
  destruct (startWatchingDevices_completes raw2 w1 Hstart Hpend1)
    as (w2 & Hrun2 & Hid2 & Hsubs2 & Hnext2 & Hcalls2 & Hpend2).
  exists w2. split.
  - revert Hrun1 Hrun2. unfold mbind, M_bind.
    destruct (startWatchingDevices env w) as [[[]| |] w0']; try done.
    intros ->. done.
  - rewrite Hsubs2, Hid2, Hcalls2, Hcalls1, Hsubs1, Hnext1. fold n traits.
    rewrite <- app_assoc. repeat split; try done;
      rewrite !elem_of_union, !elem_of_singleton; auto.
Qed.

(** ** The input callback *)

(** The branch of [deviceSetupInputReceived] taken when the slot is
    empty. *)
Lemma deviceSetupInputReceived_none input w :
  deviceSetupCallback w = None →
  deviceSetupInputReceived env input w
  = (Normal tt,
     record
       (LoggedError "Received device setup input, but no callback exists.")
       (set_state (reducer (state w) (DEVICE_SETUP_INPUT_RECEIVED input))
          (record (Dispatched (DEVICE_SETUP_INPUT_RECEIVED input)) w))).
Proof. intros Hcb. run. by rewrite Hcb. Qed.

(** C6 as the code has it: [deviceSetupInputReceived] called while no
    callback is stored dispatches DEVICE_SETUP_INPUT_RECEIVED with the
    input, as it does on every call, and then logs an error; it returns
    normally and changes nothing else: the callback slot, the task id, the
    subscriptions, the promises, the selection and the detected devices. *)
Theorem deviceSetupInputReceived_no_callback
    (input : JsValue) (w : World) :
  deviceSetupCallback w = None →
  ∃ w', deviceSetupInputReceived env input w = (Normal tt, w')
    ∧ trace w' = trace w ++
        [Dispatched (DEVICE_SETUP_INPUT_RECEIVED input);
         LoggedError "Received device setup input, but no callback exists."]
    ∧ deviceSetupCallback w' = None
    ∧ hotplugTaskId w' = hotplugTaskId w
    ∧ subscriptions w' = subscriptions w
    ∧ promises w' = promises w
    ∧ pending w' = pending w
    ∧ state w' = state w.
Proof.
  intros Hcb. rewrite deviceSetupInputReceived_none by done.
  eexists; split; [done|]. simpl. rewrite <- app_assoc. done.
Qed.

(** C10: when [deviceSetupInputReceived] finds a callback, the slot is
    empty once the call returns, so a second call with no request in
    between takes the branch that logs the error: it dispatches its
    DEVICE_SETUP_INPUT_RECEIVED, logs, and settles no promise. *)
Theorem deviceSetupCallback_invoked_once
    (cb : Callback) (first second : JsValue) (w : World) :
  deviceSetupCallback w = Some cb →
  ∃ w1 w2,
    deviceSetupInputReceived env first w = (Normal tt, w1)
    ∧ deviceSetupCallback w1 = None
    ∧ deviceSetupInputReceived env second w1 = (Normal tt, w2)
    ∧ trace w2 = trace w1 ++
        [Dispatched (DEVICE_SETUP_INPUT_RECEIVED second);
         LoggedError "Received device setup input, but no callback exists."]
    ∧ promises w2 = promises w1
    ∧ deviceSetupCallback w2 = None.
Proof.
  intros Hcb.
  assert (∃ w1, deviceSetupInputReceived env first w = (Normal tt, w1)
                ∧ deviceSetupCallback w1 = None) as (w1 & Hrun1 & Hcb1).
  { run. rewrite Hcb. simpl.
    destruct (cb_choices cb); [destruct (truthy first)|]; simpl;
      by eexists. }
  exists w1. eexists. split; [done|]. split; [done|].
  rewrite deviceSetupInputReceived_none by done.
  split; [done|]. simpl. by rewrite <- app_assoc.
Qed.

(** C5 as the code has it: for a pending request and any input, a request
    made without choices is always fulfilled, with the boolean [true] for a
    truthy input and [false] for a falsy one (it is never rejected); a
    request made with choices is fulfilled with the input when it is truthy
    and rejected with the error [Cancelled by user.] when it is falsy or
    absent. *)
Theorem deviceSetupInputReceived_settles
    (cb : Callback) (input : JsValue) (w : World) :
  deviceSetupCallback w = Some cb →
  promises w !! cb_promise cb = Some None →
  ∃ w', deviceSetupInputReceived env input w = (Normal tt, w')
    ∧ (cb_choices cb = None →
       promises w' !! cb_promise cb
       = Some (Some (Fulfilled (JsBool (truthy input)))))
    ∧ (is_Some (cb_choices cb) → truthy input = true →
       promises w' !! cb_promise cb = Some (Some (Fulfilled input)))
    ∧ (is_Some (cb_choices cb) → truthy input = false →
       promises w' !! cb_promise cb
       = Some (Some (Rejected (Error "Cancelled by user.")))).
Proof.
  intros Hcb Hp. run. rewrite Hcb. simpl.
  destruct (cb_choices cb) as [choices|] eqn:Hch; simpl.
  - destruct (truthy input) eqn:Ht; simpl; rewrite Hp; simpl;
      (eexists; split; [done|]); simpl; rewrite lookup_insert_eq;
      repeat split; try done; by intros [].
  - rewrite Hp. simpl. eexists; split; [done|]. simpl.
    rewrite lookup_insert_eq. repeat split; try done; by intros [? ?].
Qed.

(** ** Selecting and setting up *)

(** C9: when the application configuration declares no setup procedure,
    [selectAndSetupDevice] emits exactly one notification, DEVICE_SELECTED
    with the given device, and returns; the watcher is neither stopped nor
    restarted (no library call, same task id, same subscriptions, nothing
    pending), nothing is logged, and the input callback and the promises are
    untouched. *)
Theorem selectAndSetupDevice_without_setup
    (device : Device) (inputs : list JsValue) (w : World) :
  deviceSetup (getAppConfig env) = None →
  ∃ w', selectAndSetupDevice env device inputs w = (Normal tt, w')
        ∧ trace w' = trace w ++ [Dispatched (DEVICE_SELECTED device)]
        ∧ notifications w' = notifications w ++ [DEVICE_SELECTED device]
        ∧ hotplugTaskId w' = hotplugTaskId w
        ∧ subscriptions w' = subscriptions w
        ∧ pending w' = pending w
        ∧ deviceSetupCallback w' = deviceSetupCallback w
        ∧ promises w' = promises w.
Proof.
  intros Hcfg. unfold selectAndSetupDevice. rewrite Hcfg. run.
  eexists; split; [done|]. observe. done.
Qed.

(** With a setup procedure configured, [selectAndSetupDevice] is the run
    up to the [try] followed by the [try]/[catch] statement. *)
Lemma selectAndSetupDevice_with_setup device inputs setup w :
  deviceSetup (getAppConfig env) = Some setup →
  selectAndSetupDevice env device inputs w
  = (beforeSetup env device ;;
     trySetup env device (deviceSetupConfig setup) inputs) w.
Proof.
  intros Hcfg. unfold selectAndSetupDevice, beforeSetup, trySetup.
  rewrite Hcfg. unfold mbind, M_bind. simpl.
  repeat (match goal with
          | |- context [match ?m ?w0 with _ => _ end] =>
              lazymatch m with
              | try_catch _ _ => fail
              | _ => destruct (m w0) as [[[]| |] ?]
              end
          end; try done).
Qed.

(** Nothing but a rejected release step or a store that refuses
    [undefined] keeps the run from reaching the [try]. *)
Lemma beforeSetup_reaches device w :
  dispatchUndefinedError env = None →
  (∀ e, releaseCurrentDevice (getAppConfig env) ≠ Some (Rejected e)) →
  ∃ w0, beforeSetup env device w = (Normal tt, w0).
Proof.
  intros Hstore Hrel. unfold beforeSetup.
  erewrite bind_normal by apply dispatch_plain.
  match goal with
  | |- context [mbind _ (stopWatchingDevices env) ?w0] =>
      destruct (stopWatchingDevices_returns w0) as (w1 & Hstop & _)
  end.
  rewrite (bind_normal _ _ _ _ _ Hstop).
  unfold dispatch. rewrite Hstore.
  destruct (releaseCurrentDevice (getAppConfig env)) as [[[]|e]|];
    [by eexists | by destruct (Hrel e) | by eexists].
Qed.

(** The failure path of the [try]/[catch] statement. *)
Lemma trySetup_failure device config inputs e w0 w1 :
  runSetup env config (prepareDevice env device config) inputs w0
  = (Throw e, w1) →
  ∃ w', trySetup env device config inputs w0 = (Normal tt, w')
    ∧ trace w' = trace w1
        ++ [Dispatched (DEVICE_SETUP_ERROR device e)]
        ++ (if allowCustomDevice config then []
            else [LoggedError ("Error while setting up device "
                               +:+ template (serialNumber device)
                               +:+ ": " +:+ message e);
                  Dispatched DEVICE_DESELECTED])
        ++ [Called (Enumerate (selectorTraits (getAppConfig env)))]
    ∧ pending w' = pending w1 ++ [AwaitingStart]
    ∧ selectedSerialNumber (state w')
      = (if allowCustomDevice config
         then selectedSerialNumber (state w1) else None)
    ∧ subscriptions w' = subscriptions w1
    ∧ hotplugTaskId w' = hotplugTaskId w1.
Proof.
  intros Hrun. unfold trySetup, try_catch.
  rewrite (bind_throw _ _ _ _ _ Hrun).
  destruct (allowCustomDevice config); run;
    (eexists; split; [done|]); simpl;
    rewrite <- ?app_assoc; done.
Qed.

(** The success path of the [try]/[catch] statement. *)
Lemma trySetup_success device config inputs prepared w0 w1 :
  runSetup env config (prepareDevice env device config) inputs w0
  = (Normal prepared, w1) →
  ∃ w', trySetup env device config inputs w0 = (Normal tt, w')
    ∧ trace w' = trace w1
        ++ [Called (Enumerate (selectorTraits (getAppConfig env)));
            Dispatched (DEVICE_SETUP_COMPLETE prepared)]
    ∧ pending w' = pending w1 ++ [AwaitingStart]
    ∧ state w' = state w1
    ∧ subscriptions w' = subscriptions w1
    ∧ hotplugTaskId w' = hotplugTaskId w1.
Proof.
  intros Hrun. unfold trySetup, try_catch.
  rewrite (bind_normal _ _ _ _ _ Hrun). run.
  eexists; split; [done|]. simpl. rewrite <- ?app_assoc. done.
Qed.

Lemma prompt_sameWatcher handler message choices inputs w c w' :
  prompt env handler message choices inputs w = (c, w') →
  sameWatcher w w'.
Proof.
  unfold prompt. destruct handler as [|answer].
  - run. destruct inputs as [|input rest]; simpl.
    + intros [= _ <-]. unfold sameWatcher, libCalls. observe. done.
    + intros H. repeat case_match; simplify_eq;
        unfold sameWatcher, libCalls; observe; done.
  - intros [= _ <-]. apply sameWatcher_refl.
Qed.

Lemma runSetup_sameWatcher config proc :
  ∀ inputs w c w',
    runSetup env config proc inputs w = (c, w') → sameWatcher w w'.
Proof.
  induction proc as [prepared|error|message k IH|message choices k IH];
    intros inputs w c w'; simpl.
  - intros [= _ <-]. apply sameWatcher_refl.
  - intros [= _ <-]. apply sameWatcher_refl.
  - unfold mbind, M_bind.
    destruct (prompt env (promiseConfirm config) message None inputs w)
      as [[[s rest]|e|] w1] eqn:Hprompt;
      apply prompt_sameWatcher in Hprompt.
    + intros Hrun. apply IH in Hrun. by eapply sameWatcher_trans.
    + by intros [= _ <-].
    + by intros [= _ <-].
  - unfold mbind, M_bind.
    destruct (prompt env (promiseChoice config) message (Some choices)
                inputs w) as [[[s rest]|e|] w1] eqn:Hprompt;
      apply prompt_sameWatcher in Hprompt.
    + intros Hrun. apply IH in Hrun. by eapply sameWatcher_trans.
    + by intros [= _ <-].
    + by intros [= _ <-].
Qed.

(** Past the release step, every way the call settles has started the
    watcher again exactly once: the setup procedure's errors are caught,
    the call returns, and [startWatchingDevices] is awaiting a new
    enumeration. *)
Lemma selectAndSetupDevice_restarts device inputs setup w w0 c w' :
  deviceSetup (getAppConfig env) = Some setup →
  beforeSetup env device w = (Normal tt, w0) →
  selectAndSetupDevice env device inputs w = (c, w') →
  settled c = true →
  c = Normal tt
  ∧ pending w' = pending w0 ++ [AwaitingStart]
  ∧ libCalls w' = libCalls w0
      ++ [Enumerate (selectorTraits (getAppConfig env))]
  ∧ subscriptions w' = subscriptions w0.
Proof.
  intros Hcfg Hpre.
  rewrite (selectAndSetupDevice_with_setup _ _ _ _ Hcfg).
  rewrite (bind_normal _ _ _ _ _ Hpre).
  destruct (runSetup env (deviceSetupConfig setup)
              (prepareDevice env device (deviceSetupConfig setup))
              inputs w0) as [[prepared|e|] w1] eqn:Hrun;
    pose proof (runSetup_sameWatcher _ _ _ _ _ _ Hrun)
      as (Hpend & Hsubs & _ & _ & Hcalls).
  - destruct (trySetup_success _ _ _ _ _ _ Hrun)
      as (w2 & -> & Htr & Hp & _ & Hs & _).
    intros [= <- <-] _. rewrite Hp, Hs, Hpend, Hsubs, <- Hcalls.
    unfold libCalls. rewrite Htr, omap_app. simpl. done.
  - destruct (trySetup_failure _ _ _ _ _ _ Hrun)
      as (w2 & -> & Htr & Hp & _ & Hs & _).
    intros [= <- <-] _. rewrite Hp, Hs, Hpend, Hsubs, <- Hcalls.
    unfold libCalls. rewrite Htr, !omap_app.
    by destruct (allowCustomDevice (deviceSetupConfig setup)).
  - unfold trySetup, try_catch. rewrite (bind_suspended _ _ _ _ Hrun).
    by intros [= <- <-].
Qed.

(** What the new start comes to: when its enumeration is the oldest one
    outstanding and is fulfilled, a subscription is registered and its task
    id stored, so the watcher is active again; when it is rejected, the
    error is logged and the watcher stays stopped. *)
Lemma enumerationSettled_start raw rest w :
  startHotplugEventsError env = None →
  pending w = AwaitingStart :: rest →
  ∃ w', enumerationSettled env (Fulfilled raw) w = (Normal tt, w')
    ∧ hotplugTaskId w' = Some (nextTaskId w)
    ∧ subscriptions w' = {[nextTaskId w]} ∪ subscriptions w
    ∧ pending w' = rest.
Proof.
  intros Hstart Hpend. unfold enumerationSettled.
  unfold mbind at 1 2, M_bind, get, modify. rewrite Hpend. simpl.
  destruct (startWatchingDevices_resume_fulfilled raw (set_pending rest w)
              Hstart) as (w' & Hrun & Hid & Hsubs & _ & _ & _ & Hp).
  by exists w'.
Qed.

Lemma enumerationSettled_start_rejected e rest w :
  pending w = AwaitingStart :: rest →
  ∃ w', enumerationSettled env (Rejected e) w = (Normal tt, w')
    ∧ hotplugTaskId w' = hotplugTaskId w
    ∧ subscriptions w' = subscriptions w
    ∧ logged w' = logged w
        ++ ["Error while probing devices: " +:+ message e].
Proof.
  intros Hpend. unfold enumerationSettled.
  unfold mbind at 1 2, M_bind, get, modify. rewrite Hpend. simpl.
  rewrite startWatchingDevices_resume_rejected.
  eexists; split; [done|]. observe. done.
Qed.

(** A rejected release step is not inside the [try]: the rejection leaves
    [selectAndSetupDevice] as it is, after the watcher was stopped and
    before anything starts it again or reports the error. *)
Lemma selectAndSetupDevice_release_rejected device inputs setup e w :
  deviceSetup (getAppConfig env) = Some setup →
  dispatchUndefinedError env = None →
  releaseCurrentDevice (getAppConfig env) = Some (Rejected e) →
  ∃ w', selectAndSetupDevice env device inputs w = (Throw e, w')
    ∧ pending w' = pending w
    ∧ notifications w' = notifications w ++ [DEVICE_SELECTED device]
    ∧ subscriptions w' ⊆ subscriptions w.
Proof.
  intros Hcfg Hstore Hrel.
  unfold selectAndSetupDevice. rewrite Hcfg.
  rewrite (bind_normal _ _ _ _ _ (dispatch_plain _ _)).
  match goal with
  | |- context [mbind _ (stopWatchingDevices env) ?w0] =>
      destruct (stopWatchingDevices_returns w0)
        as (w1 & Hstop & Hn & _ & _ & _ & _ & _ & Hp & Hs)
  end.
  rewrite (bind_normal _ _ _ _ _ Hstop).
  unfold dispatch. rewrite Hstore, Hrel. run.
  eexists; split; [done|]. observe. rewrite Hn, Hp. observe. done.
Qed.

(** A store that refuses [undefined] stops the call right after the
    watcher was stopped. *)
Lemma selectAndSetupDevice_undefined_refused device inputs setup e w :
  deviceSetup (getAppConfig env) = Some setup →
  dispatchUndefinedError env = Some e →
  ∃ w', selectAndSetupDevice env device inputs w = (Throw e, w')
    ∧ pending w' = pending w
    ∧ notifications w' = notifications w ++ [DEVICE_SELECTED device].
Proof.
  intros Hcfg Hstore.
  unfold selectAndSetupDevice. rewrite Hcfg.
  rewrite (bind_normal _ _ _ _ _ (dispatch_plain _ _)).
  match goal with
  | |- context [mbind _ (stopWatchingDevices env) ?w0] =>
      destruct (stopWatchingDevices_returns w0)
        as (w1 & Hstop & Hn & _ & _ & _ & _ & _ & Hp & Hs)
  end.
  rewrite (bind_normal _ _ _ _ _ Hstop).
  unfold dispatch. rewrite Hstore. run.
  eexists; split; [done|]. rewrite Hn, Hp. observe. done.
Qed.

End Launcher.

(** * More of the module *)

(** ** Wrapping devices *)

(** X1: [wrapDevices] returns one device per enumerated device, in order, with
    the serial number, serial ports and jlink it was given; [serialport] is
    the first serial port and is undefined exactly when [serialPorts] is
    absent or empty; [boardVersion] is undefined when [jlink] is absent. *)
Theorem wrapDevices_fields (raw : list RawDevice) :
  length (wrapDevices raw) = length raw
  ∧ ∀ i d, raw !! i = Some d →
      ∃ d', wrapDevices raw !! i = Some d'
        ∧ serialNumber d' = raw_serialNumber d
        ∧ serialPorts d' = raw_serialPorts d
        ∧ jlink d' = raw_jlink d
        ∧ (∀ port, serialport d' = Some port
                   ↔ ∃ rest, raw_serialPorts d = Some (port :: rest))
        ∧ (serialport d' = None
           ↔ raw_serialPorts d = None ∨ raw_serialPorts d = Some [])
        ∧ (raw_jlink d = None → boardVersion d' = None)
        ∧ (∀ j, raw_jlink d = Some j → boardVersion d' = jl_boardVersion j).
Proof.
  unfold wrapDevices. split; [apply length_map|].
  intros i d Hi. exists (wrapDevice d). split.
  { by rewrite list_lookup_fmap, Hi. }
  unfold wrapDevice. simpl. repeat split; try done.
  - destruct (raw_serialPorts d) as [[|p ports]|]; simpl; try done.
    intros [= ->]. by eexists.
  - intros [rest ->]. done.
  - destruct (raw_serialPorts d) as [[|p ports]|]; simpl; auto; done.
  - intros [-> | ->]; done.
  - by intros ->.
  - by intros j ->.
Qed.

(** Sequencing is associative. *)
Lemma seq_assoc {A B C} (m : M A) (n : M B) (k : M C) w :
  (m ;; n ;; k) w = ((m ;; n) ;; k) w.
Proof.
  unfold mbind, M_bind. by destruct (m w) as [[a|e|] w1].
Qed.

Section Watching.

Context (env : Env).

(** ** Enumerations: published, rejected, refused *)

(** Applying a fulfilled enumeration publishes the wrapped list last. *)
Lemma updateDeviceList_publishes raw w :
  ∃ w', updateDeviceList env (Fulfilled raw) w = (Normal tt, w')
    ∧ (notifications w'
         = notifications w ++ [DEVICES_DETECTED (wrapDevices raw)]
       ∨ notifications w'
         = notifications w
           ++ [DEVICE_DESELECTED; DEVICES_DETECTED (wrapDevices raw)])
    ∧ sameWatcher w w'
    ∧ logged w' = logged w
    ∧ deviceSetupCallback w' = deviceSetupCallback w
    ∧ promises w' = promises w.
Proof.
  run. destruct (selectedSerialNumber (state w)); simpl;
    [case_bool_decide; simpl|];
    (eexists; split; [done|]); unfold sameWatcher, libCalls; observe;
    rewrite <- ?app_assoc; simpl; repeat split; auto.
Qed.

(** A start that is the only thing awaiting an enumeration goes on, once
    the enumeration settles, from the world in which the enumeration was
    called. *)
Lemma startWatchingDevices_settled r w :
  pending w = [] →
  (startWatchingDevices env ;; enumerationSettled env r) w
  = startWatchingDevices_resume env r
      (record (Called (Enumerate (selectorTraits (getAppConfig env)))) w).
Proof.
  intros Hpend.
  unfold startWatchingDevices, enumerationSettled, enumerate.
  unfold mbind at 1 2 3 4, M_bind, modify, get. simpl. rewrite Hpend. simpl.
  f_equal. destruct w; simpl in *; subst; reflexivity.
Qed.

(** The same for an [updateDeviceList] called by the library for an
    active subscription. *)
Lemma hotplugEvent_settled taskId r w :
  taskId ∈ subscriptions w →
  pending w = [] →
  (hotplugEvent env taskId ;; enumerationSettled env r) w
  = updateDeviceList env r
      (record (Called (Enumerate (selectorTraits (getAppConfig env)))) w).
Proof.
  intros Hin Hpend.
  unfold hotplugEvent, enumerationSettled, enumerate.
  unfold mbind, M_bind, modify, get. simpl.
  destruct (decide (taskId ∈ subscriptions w)); [|done].
  simpl. rewrite Hpend. simpl.
  f_equal. destruct w; simpl in *; subst; reflexivity.
Qed.

(** X2: When the enumeration of a start is rejected, the start still returns:
    the error is logged with the prefix [Error while probing devices: ],
    nothing is dispatched, the library is not asked to start hotplug events
    and no task id is stored, so the watcher stays as it was. *)
Theorem startWatchingDevices_enumeration_rejected (e : JsError) (w : World) :
  pending w = [] →
  ∃ w', (startWatchingDevices env ;;
         enumerationSettled env (Rejected e)) w = (Normal tt, w')
    ∧ notifications w' = notifications w
    ∧ logged w' = logged w
        ++ ["Error while probing devices: " +:+ message e]
    ∧ libCalls w' = libCalls w
        ++ [Enumerate (selectorTraits (getAppConfig env))]
    ∧ subscriptions w' = subscriptions w
    ∧ hotplugTaskId w' = hotplugTaskId w
    ∧ pending w' = [].
Proof.
  intros Hpend. rewrite startWatchingDevices_settled by done.
  rewrite startWatchingDevices_resume_rejected.
  eexists; split; [done|]. unfold libCalls. observe. done.
Qed.

(** X3: When the enumeration is fulfilled but the library refuses to start
    hotplug events, the device list has been published all the same
    (DEVICES_DETECTED is the last notification), the error is logged, and
    no subscription or task id results. *)
Theorem startWatchingDevices_subscription_refused
    (e : JsError) (raw : list RawDevice) (w : World) :
  startHotplugEventsError env = Some e →
  pending w = [] →
  ∃ w', (startWatchingDevices env ;;
         enumerationSettled env (Fulfilled raw)) w = (Normal tt, w')
    ∧ last (notifications w') = Some (DEVICES_DETECTED (wrapDevices raw))
    ∧ logged w' = logged w
        ++ ["Error while probing devices: " +:+ message e]
    ∧ subscriptions w' = subscriptions w
    ∧ hotplugTaskId w' = hotplugTaskId w.
Proof.
  intros Hstart Hpend. rewrite startWatchingDevices_settled by done.
  match goal with
  | |- context [startWatchingDevices_resume env _ ?w0] =>
      destruct (updateDeviceList_publishes raw w0)
        as (w1 & Hrun & Hn & (_ & Hsubs & _ & Hid & _) & Hlog & _)
  end.
  unfold startWatchingDevices_resume, try_catch.
  rewrite (bind_normal _ _ _ _ _ Hrun). clear Hrun.
  unfold startHotplugEvents. rewrite Hstart.
  unfold mbind, M_bind, throw, logger_error, modify. simpl.
  eexists; split; [done|]. observe. rewrite Hlog, Hsubs, Hid. observe.
  repeat split; try done.
  destruct Hn as [-> | ->]; by rewrite last_app.
Qed.

(** X4: A hotplug event of an active subscription enumerates again and
    publishes the list, and registers nothing: subscriptions and task id
    are as before. *)
Theorem hotplugEvent_publishes
    (taskId : nat) (raw : list RawDevice) (w : World) :
  taskId ∈ subscriptions w →
  pending w = [] →
  ∃ w', (hotplugEvent env taskId ;;
         enumerationSettled env (Fulfilled raw)) w = (Normal tt, w')
    ∧ last (notifications w') = Some (DEVICES_DETECTED (wrapDevices raw))
    ∧ libCalls w' = libCalls w
        ++ [Enumerate (selectorTraits (getAppConfig env))]
    ∧ subscriptions w' = subscriptions w
    ∧ hotplugTaskId w' = hotplugTaskId w
    ∧ logged w' = logged w.
Proof.
  intros Hin Hpend. rewrite hotplugEvent_settled by done.
  match goal with
  | |- context [updateDeviceList env _ ?w0] =>
      destruct (updateDeviceList_publishes raw w0)
        as (w1 & Hrun & Hn & (_ & Hsubs & _ & Hid & Hcalls) & Hlog & _)
  end.
  exists w1. split; [done|].
  rewrite Hsubs, Hid, Hcalls, Hlog. unfold libCalls. observe.
  repeat split; try done.
  destruct Hn as [-> | ->]; by rewrite last_app.
Qed.

(** X5: An enumeration rejected inside a hotplug callback is handled by
    nobody: [updateDeviceList] has no [catch] of its own, so its promise
    rejects with the error, nothing is logged and nothing is dispatched. *)
Theorem hotplugEvent_enumeration_rejected
    (taskId : nat) (e : JsError) (w : World) :
  taskId ∈ subscriptions w →
  pending w = [] →
  ∃ w', (hotplugEvent env taskId ;;
         enumerationSettled env (Rejected e)) w = (Throw e, w')
    ∧ notifications w' = notifications w
    ∧ logged w' = logged w
    ∧ subscriptions w' = subscriptions w
    ∧ hotplugTaskId w' = hotplugTaskId w.
Proof.
  intros Hin Hpend. rewrite hotplugEvent_settled by done.
  rewrite updateDeviceList_rejected.
  eexists; split; [done|]. observe. done.
Qed.

(** ** Stopping *)

Lemma stopWatchingDevices_active id w :
  deviceLibContext env = true →
  hotplugTaskId w = Some id →
  id ∈ subscriptions w →
  stopWatchingDevices env w
  = (Normal tt,
     set_lib (subscriptions w ∖ {[id]}) (nextTaskId w)
       (record (Called (StopHotplugEvents (Some id))) w)).
Proof.
  intros Hctx Hid Hin. run. rewrite Hctx, Hid. simpl.
  destruct (decide (id ∈ subscriptions w)); done.
Qed.

Lemma stopWatchingDevices_stale id w :
  deviceLibContext env = true →
  hotplugTaskId w = Some id →
  id ∉ subscriptions w →
  stopWatchingDevices env w
  = (Normal tt,
     match stopHotplugEventsError env with
     | Some e =>
         record
           (LoggedError
              ("Error while stop watching devices: " +:+ message e))
           (record (Called (StopHotplugEvents (Some id))) w)
     | None => record (Called (StopHotplugEvents (Some id))) w
     end).
Proof.
  intros Hctx Hid Hin. run. rewrite Hctx, Hid. simpl.
  destruct (decide (id ∈ subscriptions w)); [done|].
  by destruct (stopHotplugEventsError env).
Qed.

(** X6: A stop after a completed start ends the subscription that start
    registered and no other; the stop logs nothing and dispatches nothing
    (the notifications and the log are those the start left), and its only
    call to the library is [stopHotplugEvents] with the stored id.  The
    task id stays in [hotplugTaskId]. *)
Theorem start_then_stop (raw : list RawDevice) (w : World) :
  deviceLibContext env = true →
  startHotplugEventsError env = None →
  pending w = [] →
  ∃ w', (startWatchingDevices env ;;
         enumerationSettled env (Fulfilled raw) ;;
         stopWatchingDevices env) w = (Normal tt, w')
    ∧ (nextTaskId w ∉ subscriptions w')
    ∧ subscriptions w' = subscriptions w ∖ {[nextTaskId w]}
    ∧ hotplugTaskId w' = Some (nextTaskId w)
    ∧ logged w' = logged w
    ∧ ∃ w1, (startWatchingDevices env ;;
             enumerationSettled env (Fulfilled raw)) w = (Normal tt, w1)
        ∧ nextTaskId w ∈ subscriptions w1
        ∧ stopWatchingDevices env w1 = (Normal tt, w')
        ∧ notifications w' = notifications w1
        ∧ logged w' = logged w1
        ∧ libCalls w' = libCalls w1
            ++ [StopHotplugEvents (Some (nextTaskId w))]
        ∧ subscriptions w' = subscriptions w1 ∖ {[nextTaskId w]}.
Proof.
  intros Hctx Hstart Hpend.
  pose proof (startWatchingDevices_settled (Fulfilled raw) w Hpend) as Heq.
  match type of Heq with
  | _ = startWatchingDevices_resume env _ ?w0 =>
      destruct (startWatchingDevices_resume_fulfilled env raw w0 Hstart)
        as (w2 & Hres & Hid & Hsubs & _ & _ & Hlog & _)
  end.
  rewrite Hres in Heq. simpl in Hid, Hsubs.
  assert (logged w2 = logged w) as Hlog' by (rewrite Hlog; observe; done).
  clear Hlog Hres.
  assert (nextTaskId w ∈ subscriptions w2) as Hin
    by (rewrite Hsubs; apply elem_of_union_l, elem_of_singleton; done).
  pose proof (stopWatchingDevices_active (nextTaskId w) w2 Hctx Hid Hin)
    as Hstop.
  rewrite seq_assoc, (bind_normal _ _ _ _ _ Heq), Hstop.
  eexists; split; [done|].
  split; [simpl; rewrite elem_of_difference, elem_of_singleton; tauto|].
  split.
  { simpl. rewrite Hsubs. apply set_eq. intros x.
    rewrite !elem_of_difference, elem_of_union, elem_of_singleton. tauto. }
  split; [done|].
  split; [rewrite <- Hlog'; unfold logged; simpl; rewrite omap_app; simpl;
          by rewrite app_nil_r|].
  exists w2. split; [done|]. split; [done|]. split; [done|].
  unfold notifications, logged, libCalls. simpl. rewrite !omap_app. simpl.
  rewrite !app_nil_r. done.
Qed.

(** X7: [stopWatchingDevices] does not forget the task id.  A second stop
    hands the same id to the library again; whatever the library then
    throws is caught and logged, and the subscriptions are as the first
    stop left them. *)
Theorem stopWatchingDevices_twice (id : nat) (w : World) :
  deviceLibContext env = true →
  hotplugTaskId w = Some id →
  id ∈ subscriptions w →
  ∃ w1 w2,
    stopWatchingDevices env w = (Normal tt, w1)
    ∧ subscriptions w1 = subscriptions w ∖ {[id]}
    ∧ hotplugTaskId w1 = Some id
    ∧ stopWatchingDevices env w1 = (Normal tt, w2)
    ∧ subscriptions w2 = subscriptions w1
    ∧ libCalls w2 = libCalls w
        ++ [StopHotplugEvents (Some id); StopHotplugEvents (Some id)]
    ∧ logged w2 = logged w
        ++ match stopHotplugEventsError env with
           | Some e =>
               ["Error while stop watching devices: " +:+ message e]
           | None => []
           end
    ∧ notifications w2 = notifications w.
Proof.
  intros Hctx Hid Hin.
  rewrite (stopWatchingDevices_active id) by done.
  eexists _, _. split; [done|]. split; [done|]. split; [done|].
  rewrite (stopWatchingDevices_stale id); try done;
    [| simpl; rewrite elem_of_difference, elem_of_singleton; tauto].
  split; [done|].
  destruct (stopHotplugEventsError env); unfold libCalls; observe;
    rewrite <- ?app_assoc; done.
Qed.

End Watching.

Section Input.

Context (env : Env).

(** ** Requests and answers *)

(** The world right after a request. *)
Lemma getDeviceSetupUserInput_first message choices w :
  getDeviceSetupUserInput env message choices w
  = (Normal (nextPromise w), requested message choices w).
Proof. reflexivity. Qed.

(** A request followed by the user's input, from any world. *)
Lemma request_then_input message choices input w :
  ∃ w', (p ← getDeviceSetupUserInput env message choices;
         deviceSetupInputReceived env input ;; mret p) w
        = (Normal (nextPromise w), w')
    ∧ promises w' !! nextPromise w = Some (Some (answer choices input))
    ∧ (∀ q, q ≠ nextPromise w → promises w' !! q = promises w !! q)
    ∧ nextPromise w' = S (nextPromise w)
    ∧ deviceSetupCallback w' = None
    ∧ notifications w' = notifications w
        ++ [DEVICE_SETUP_INPUT_REQUIRED message choices;
            DEVICE_SETUP_INPUT_RECEIVED input]
    ∧ logged w' = logged w
    ∧ sameWatcher w w'.
Proof.
  unfold getDeviceSetupUserInput, deviceSetupInputReceived, callback,
    settle, newPromise, dispatch, modify, get, mbind, M_bind, mret, M_ret.
  simpl. unfold answer.
  destruct choices as [cs|]; [destruct (truthy input)|]; simpl;
    rewrite lookup_insert_eq; simpl;
    (eexists; split; [done|]); simpl;
    rewrite lookup_insert_eq;
    unfold sameWatcher, libCalls; observe; rewrite <- ?app_assoc;
    repeat split; try done;
    intros q Hq; rewrite !lookup_insert_ne by done; done.
Qed.

(** X8: The round trip of a request: from any world, whatever callback or
    promises were left behind, a request followed by an input settles the
    promise that the request returned, by the rule of the callback
    ([answer]); the slot is empty afterwards, exactly
    DEVICE_SETUP_INPUT_REQUIRED and DEVICE_SETUP_INPUT_RECEIVED were
    dispatched, nothing was logged and no other promise changed. *)
Theorem request_input_round_trip
    (message : string) (choices : option (list string)) (input : JsValue)
    (w : World) :
  ∃ p w', (p ← getDeviceSetupUserInput env message choices;
           deviceSetupInputReceived env input ;; mret p) w
          = (Normal p, w')
    ∧ promises w' !! p = Some (Some (answer choices input))
    ∧ (∀ q, q ≠ p → promises w' !! q = promises w !! q)
    ∧ deviceSetupCallback w' = None
    ∧ notifications w' = notifications w
        ++ [DEVICE_SETUP_INPUT_REQUIRED message choices;
            DEVICE_SETUP_INPUT_RECEIVED input]
    ∧ logged w' = logged w.
Proof.
  destruct (request_then_input message choices input w)
    as (w' & Hrun & Hp & Hq & _ & Hcb & Hn & Hlog & _).
  by exists (nextPromise w), w'.
Qed.

(** X9: A second request made while the first is unanswered takes the slot:
    the next input settles the promise of the second request, the promise
    of the first stays unsettled, and with the slot empty again no later
    input can settle it either. *)
Theorem second_request_overwrites
    (message1 message2 : string) (choices1 choices2 : option (list string))
    (input later : JsValue) (w : World) :
  ∃ p1 p2 w' w'',
    (p1 ← getDeviceSetupUserInput env message1 choices1;
     p2 ← getDeviceSetupUserInput env message2 choices2;
     deviceSetupInputReceived env input ;; mret (p1, p2)) w
    = (Normal (p1, p2), w')
    ∧ p1 ≠ p2
    ∧ promises w' !! p1 = Some None
    ∧ promises w' !! p2 = Some (Some (answer choices2 input))
    ∧ deviceSetupCallback w' = None
    ∧ deviceSetupInputReceived env later w' = (Normal tt, w'')
    ∧ promises w'' !! p1 = Some None.
Proof.
  exists (nextPromise w), (S (nextPromise w)).
  rewrite (bind_normal _ _ _ _ _
             (getDeviceSetupUserInput_first message1 choices1 w)).
  destruct (request_then_input message2 choices2 input
              (requested message1 choices1 w))
    as (w' & Hrun & Hp & Hq & _ & Hcb & _).
  simpl in Hrun, Hp, Hq.
  assert (promises w' !! nextPromise w = Some None) as Hp1.
  { rewrite Hq by lia. apply lookup_insert_eq. }
  exists w'. eexists. split.
  { revert Hrun. unfold mbind, M_bind.
    destruct (getDeviceSetupUserInput env message2 choices2 _)
      as [[p|?|] w1]; try done.
    destruct (deviceSetupInputReceived env input w1) as [[[]|?|] w2];
      try done.
    unfold mret, M_ret. by intros [= -> ->]. }
  split; [lia|]. split; [done|]. split; [done|]. split; [done|].
  rewrite deviceSetupInputReceived_none by done.
  split; [done|]. done.
Qed.

(** However the slot is filled, a received input is dispatched and the
    slot is empty afterwards. *)
Lemma deviceSetupInputReceived_any input w :
  ∃ w', deviceSetupInputReceived env input w = (Normal tt, w')
    ∧ notifications w' = notifications w
        ++ [DEVICE_SETUP_INPUT_RECEIVED input]
    ∧ deviceSetupCallback w' = None
    ∧ sameWatcher w w'.
Proof.
  destruct (deviceSetupCallback w) as [cb|] eqn:Hcb.
  - unfold deviceSetupInputReceived, callback, settle, dispatch, modify,
      get, mbind, M_bind. simpl. rewrite Hcb.
    destruct (cb_choices cb); [destruct (truthy input)|]; simpl;
      (eexists; split; [done|]); unfold sameWatcher, libCalls;
      repeat case_match; observe; done.
  - rewrite deviceSetupInputReceived_none by done.
    eexists; split; [done|]. unfold sameWatcher, libCalls. observe. done.
Qed.

(** X10: [deviceSetupInputReceived] returns normally in every world: it
    dispatches DEVICE_SETUP_INPUT_RECEIVED with the input and nothing
    else, leaves the slot empty and does not touch the watcher. *)
Theorem deviceSetupInputReceived_returns (input : JsValue) (w : World) :
  ∃ w', deviceSetupInputReceived env input w = (Normal tt, w')
    ∧ notifications w' = notifications w
        ++ [DEVICE_SETUP_INPUT_RECEIVED input]
    ∧ deviceSetupCallback w' = None
    ∧ sameWatcher w w'.
Proof. apply deviceSetupInputReceived_any. Qed.

(** ** The setup procedure and its answers *)

Lemma prompt_answered message choices input rest w :
  ∃ w', prompt env LauncherPrompt message choices (input :: rest) w
        = (Normal (answer choices input, rest), w')
    ∧ notifications w `prefix_of` notifications w'.
Proof.
  destruct (request_then_input message choices input w)
    as (w' & Hrun & Hp & _ & _ & _ & Hn & _).
  exists w'. split; [| rewrite Hn; by eexists].
  revert Hrun. unfold prompt, mbind, M_bind.
  destruct (getDeviceSetupUserInput env message choices w)
    as [[p|?|] w1]; try done.
  destruct (deviceSetupInputReceived env input w1) as [[[]|?|] w2];
    try done.
  unfold mret, M_ret. intros [= -> ->].
  unfold try_catch, awaitPromise, get, mbind, M_bind. simpl. rewrite Hp.
  by destruct (answer choices input).
Qed.

Lemma prompt_unanswered message choices w :
  ∃ w', prompt env LauncherPrompt message choices [] w = (Suspended, w')
    ∧ notifications w `prefix_of` notifications w'.
Proof.
  unfold prompt, getDeviceSetupUserInput, newPromise, dispatch, modify,
    suspend, mbind, M_bind, mret, M_ret. simpl.
  eexists; split; [done|]. observe. by eexists.
Qed.

Lemma runSetup_result config proc :
  ∀ inputs w,
    ∃ w', runSetup env config proc inputs w
          = (setupOutcome config proc inputs, w')
      ∧ notifications w `prefix_of` notifications w'.
Proof.
  induction proc as [prepared|error|message k IH|message choices k IH];
    intros inputs w; simpl.
  - by eexists.
  - by eexists.
  - destruct (promiseConfirm config) as [|f].
    + destruct inputs as [|input rest].
      * destruct (prompt_unanswered message None w) as (w' & Hrun & Hn).
        exists w'. by rewrite (bind_suspended _ _ _ _ Hrun).
      * destruct (prompt_answered message None input rest w)
          as (w1 & Hrun & Hn).
        rewrite (bind_normal _ _ _ _ _ Hrun).
        destruct (IH (answer None input) rest w1) as (w' & -> & Hn').
        exists w'. split; [done|]. by etrans.
    + rewrite (bind_normal _ _ w (f message None, inputs) w eq_refl).
      apply IH.
  - destruct (promiseChoice config) as [|f].
    + destruct inputs as [|input rest].
      * destruct (prompt_unanswered message (Some choices) w)
          as (w' & Hrun & Hn).
        exists w'. by rewrite (bind_suspended _ _ _ _ Hrun).
      * destruct (prompt_answered message (Some choices) input rest w)
          as (w1 & Hrun & Hn).
        rewrite (bind_normal _ _ _ _ _ Hrun).
        destruct (IH (answer (Some choices) input) rest w1)
          as (w' & -> & Hn').
        exists w'. split; [done|]. by etrans.
    + rewrite (bind_normal _ _ w (f message (Some choices), inputs) w
                 eq_refl).
      apply IH.
Qed.

(** X11: How the setup procedure ends depends on the procedure and on the
    user's answers only, not on the world it is run in: whatever callback
    or promises earlier runs left behind, each prompt of the launcher gets
    the next input, settled by the rule of the callback, and a prompt with
    no input left keeps the procedure suspended. *)
Theorem runSetup_outcome
    (config : DeviceSetupConfig) (proc : SetupProc)
    (inputs : list JsValue) (w : World) :
  (runSetup env config proc inputs w).1 = setupOutcome config proc inputs.
Proof.
  destruct (runSetup_result config proc inputs w) as (w' & -> & _). done.
Qed.

End Input.

Section Setup.

Context (env : Env).

(** ** The whole of [selectAndSetupDevice] *)

(** However the run up to the [try] ends, it has dispatched
    DEVICE_SELECTED and nothing else, it has registered nothing, and with a
    device library context the subscription of the stored task id is
    gone. *)
Lemma beforeSetup_any device w c w0 :
  beforeSetup env device w = (c, w0) →
  notifications w0 = notifications w ++ [DEVICE_SELECTED device]
  ∧ subscriptions w0 ⊆ subscriptions w
  ∧ hotplugTaskId w0 = hotplugTaskId w
  ∧ pending w0 = pending w
  ∧ (deviceLibContext env = true →
     ∀ id, hotplugTaskId w = Some id → id ∉ subscriptions w0).
Proof.
  unfold beforeSetup.
  rewrite (bind_normal _ _ _ _ _ (dispatch_plain _ _ _)).
  set (w1 := set_state _ _).
  assert (∃ w2, stopWatchingDevices env w1 = (Normal tt, w2)
                ∧ notifications w2 = notifications w ++ [DEVICE_SELECTED device]
                ∧ subscriptions w2 ⊆ subscriptions w
                ∧ hotplugTaskId w2 = hotplugTaskId w
                ∧ pending w2 = pending w
                ∧ (deviceLibContext env = true →
                   ∀ id, hotplugTaskId w = Some id → id ∉ subscriptions w2))
    as (w2 & Hstop & Hn & Hsubs & Hid & Hpend & Hgone).
  { destruct (stopWatchingDevices_returns env w1)
      as (w2 & Hstop & Hn & _ & _ & Hid & _ & _ & Hpend & Hsubs).
    exists w2. split; [done|]. rewrite Hn, Hid, Hpend.
    subst w1. observe. repeat split; try done.
    intros Hctx id Htask.
    destruct (decide (id ∈ subscriptions w)) as [Hin|Hout].
    - rewrite (stopWatchingDevices_active env id) in Hstop by done.
      injection Hstop as <-. simpl.
      rewrite elem_of_difference, elem_of_singleton. tauto.
    - intros Hin. by apply Hout, Hsubs. }
  rewrite (bind_normal _ _ _ _ _ Hstop).
  unfold dispatch, mbind, M_bind, throw, mret, M_ret, modify, await.
  destruct (dispatchUndefinedError env); simpl.
  { by intros [= _ <-]. }
  destruct (releaseCurrentDevice (getAppConfig env)) as [[[]|e]|]; simpl;
    intros [= _ <-]; observe; done.
Qed.

(** However the [try]/[catch] statement ends, it has registered and
    stopped nothing and has only added notifications. *)
Lemma trySetup_any device config inputs w0 c w' :
  trySetup env device config inputs w0 = (c, w') →
  subscriptions w' = subscriptions w0
  ∧ hotplugTaskId w' = hotplugTaskId w0
  ∧ notifications w0 `prefix_of` notifications w'.
Proof.
  destruct (runSetup_result env config (prepareDevice env device config)
              inputs w0) as (w1 & Hrun & Hpre).
  pose proof (runSetup_sameWatcher _ _ _ _ _ _ _ Hrun)
    as (_ & Hsubs & _ & Hid & _).
  destruct (setupOutcome config (prepareDevice env device config) inputs)
    as [prepared|e|].
  - destruct (trySetup_success _ _ _ _ _ _ _ Hrun)
      as (w2 & -> & Htr & _ & _ & Hs & Hi).
    intros [= _ <-]. rewrite Hs, Hi. repeat split; try done.
    etrans; [done|]. unfold notifications. rewrite Htr, omap_app.
    by eexists.
  - destruct (trySetup_failure _ _ _ _ _ _ _ Hrun)
      as (w2 & -> & Htr & _ & _ & Hs & Hi).
    intros [= _ <-]. rewrite Hs, Hi. repeat split; try done.
    etrans; [done|]. unfold notifications. rewrite Htr, omap_app.
    by eexists.
  - unfold trySetup, try_catch. rewrite (bind_suspended _ _ _ _ Hrun).
    by intros [= _ <-].
Qed.

(** Once the enumeration awaited by a start is fulfilled and is the
    oldest one outstanding, the watcher is active: the list is published,
    a subscription is registered and its task id stored. *)
Lemma enumerationSettled_restart raw rest w :
  startHotplugEventsError env = None →
  pending w = AwaitingStart :: rest →
  ∃ w', enumerationSettled env (Fulfilled raw) w = (Normal tt, w')
    ∧ hotplugTaskId w' = Some (nextTaskId w)
    ∧ subscriptions w' = {[nextTaskId w]} ∪ subscriptions w
    ∧ pending w' = rest
    ∧ last (notifications w') = Some (DEVICES_DETECTED (wrapDevices raw))
    ∧ logged w' = logged w.
Proof.
  intros Hstart Hpend. unfold enumerationSettled.
  unfold mbind at 1 2, M_bind, get, modify. rewrite Hpend. simpl.
  destruct (updateDeviceList_publishes env raw (set_pending rest w))
    as (w1 & Hrun & Hn & (Hp & Hsubs & Hnext & _) & Hlog & _).
  unfold startWatchingDevices_resume, try_catch.
  rewrite (bind_normal _ _ _ _ _ Hrun). clear Hrun.
  unfold startHotplugEvents. rewrite Hstart.
  unfold mbind, M_bind, modify. simpl.
  eexists; split; [done|]. simpl in *. rewrite Hnext, Hsubs, Hp.
  repeat split; try done.
  - unfold notifications in *. simpl in *. rewrite omap_app. simpl.
    rewrite app_nil_r. destruct Hn as [-> | ->]; by rewrite last_app.
  - unfold logged in *. simpl in *. rewrite omap_app. simpl.
    by rewrite app_nil_r.
Qed.

(** C7: a run of [selectAndSetupDevice] that reaches the setup procedure
    (the run up to the [try] returned, in world [w0]) and whose setup
    procedure throws [e] returns normally, having emitted DEVICE_SETUP_ERROR
    with the original device and [e] and started the watcher again: a new
    enumeration is called and [startWatchingDevices] awaits it, and once
    that enumeration is fulfilled (no other enumeration being outstanding
    and the library accepting the subscription) the device list is
    published, a new subscription is registered and it is the one stored in
    [hotplugTaskId].  When [allowCustomDevice] is absent or false,
    DEVICE_DESELECTED is emitted in between and the selection is cleared;
    when it is true no deselection is emitted and the selection is kept. *)
Theorem selectAndSetupDevice_setup_throws
    (device : Device) (inputs : list JsValue)
    (setup : DeviceSetup) (e : JsError) (w w0 w1 : World) :
  deviceSetup (getAppConfig env) = Some setup →
  beforeSetup env device w = (Normal tt, w0) →
  runSetup env (deviceSetupConfig setup)
    (prepareDevice env device (deviceSetupConfig setup)) inputs w0
  = (Throw e, w1) →
  ∃ w', selectAndSetupDevice env device inputs w = (Normal tt, w')
    ∧ pending w' = pending w1 ++ [AwaitingStart]
    ∧ libCalls w' = libCalls w1
        ++ [Enumerate (selectorTraits (getAppConfig env))]
    ∧ (ds_allowCustomDevice setup = None
       ∨ ds_allowCustomDevice setup = Some false →
       notifications w' = notifications w1
         ++ [DEVICE_SETUP_ERROR device e; DEVICE_DESELECTED]
       ∧ selectedSerialNumber (state w') = None)
    ∧ (ds_allowCustomDevice setup = Some true →
       notifications w' = notifications w1 ++ [DEVICE_SETUP_ERROR device e]
       ∧ selectedSerialNumber (state w')
         = selectedSerialNumber (state w1))
    ∧ (pending w = [] →
       startHotplugEventsError env = None →
       ∀ raw,
         ∃ w'', enumerationSettled env (Fulfilled raw) w' = (Normal tt, w'')
           ∧ hotplugTaskId w'' = Some (nextTaskId w')
           ∧ nextTaskId w' ∈ subscriptions w''
           ∧ subscriptions w'' = {[nextTaskId w']} ∪ subscriptions w'
           ∧ last (notifications w'')
             = Some (DEVICES_DETECTED (wrapDevices raw))
           ∧ pending w'' = []).
Proof.
  intros Hcfg Hpre Hrun.
  rewrite (selectAndSetupDevice_with_setup _ _ _ _ _ Hcfg).
  rewrite (bind_normal _ _ _ _ _ Hpre).
  destruct (trySetup_failure _ _ _ _ _ _ _ Hrun)
    as (w' & Htry & Htr & Hpend & Hsel & _).
  exists w'. split; [done|]. split; [done|].
  split; [| split; [| split]].
  - unfold libCalls. rewrite Htr, !omap_app.
    by destruct (allowCustomDevice (deviceSetupConfig setup)).
  - intros Hstrict. unfold notifications. rewrite Htr, Hsel, !omap_app.
    unfold deviceSetupConfig. simpl.
    destruct (ds_allowCustomDevice setup) as [[|]|]; simpl;
      rewrite ?app_nil_r; try done; by destruct Hstrict.
  - intros Hallow. unfold notifications. rewrite Htr, Hsel, !omap_app.
    unfold deviceSetupConfig. simpl. rewrite Hallow. simpl.
    by rewrite ?app_nil_r.
  - intros Hidle Hstart raw.
    destruct (beforeSetup_any _ _ _ _ Hpre) as (_ & _ & _ & Hp0 & _).
    pose proof (runSetup_sameWatcher _ _ _ _ _ _ _ Hrun) as (Hp1 & _).
    assert (pending w' = [AwaitingStart]) as Hqueued
      by (by rewrite Hpend, Hp1, Hp0, Hidle).
    destruct (enumerationSettled_restart raw [] w' Hstart Hqueued)
      as (w'' & Hsettled & Hid & Hsubs & Hrest & Hlast & _).
    exists w''. repeat split; try done.
    rewrite Hsubs. by apply elem_of_union_l, elem_of_singleton.
Qed.

(** X12: A run that reaches the setup procedure and whose procedure returns a
    prepared device returns normally: [startWatchingDevices] is called
    first (its enumeration is asked for and awaited) and then
    DEVICE_SETUP_COMPLETE is dispatched with the prepared device, before
    any device list of the new start; nothing is logged, no deselection or
    error is emitted, the selection is kept, and no subscription exists
    yet for the new start. *)
Theorem selectAndSetupDevice_setup_returns
    (device prepared : Device) (inputs : list JsValue)
    (setup : DeviceSetup) (w w0 w1 : World) :
  deviceSetup (getAppConfig env) = Some setup →
  beforeSetup env device w = (Normal tt, w0) →
  runSetup env (deviceSetupConfig setup)
    (prepareDevice env device (deviceSetupConfig setup)) inputs w0
  = (Normal prepared, w1) →
  ∃ w', selectAndSetupDevice env device inputs w = (Normal tt, w')
    ∧ trace w' = trace w1
        ++ [Called (Enumerate (selectorTraits (getAppConfig env)));
            Dispatched (DEVICE_SETUP_COMPLETE prepared)]
    ∧ notifications w' = notifications w1
        ++ [DEVICE_SETUP_COMPLETE prepared]
    ∧ logged w' = logged w1
    ∧ pending w' = pending w1 ++ [AwaitingStart]
    ∧ state w' = state w1
    ∧ subscriptions w' = subscriptions w0.
Proof.
  intros Hcfg Hpre Hrun.
  rewrite (selectAndSetupDevice_with_setup _ _ _ _ _ Hcfg).
  rewrite (bind_normal _ _ _ _ _ Hpre).
  destruct (trySetup_success _ _ _ _ _ _ _ Hrun)
    as (w' & Htry & Htr & Hpend & Hstate & Hsubs & _).
  pose proof (runSetup_sameWatcher _ _ _ _ _ _ _ Hrun)
    as (_ & Hsubs1 & _).
  exists w'. split; [done|].
  unfold notifications, logged. rewrite Htr, !omap_app. simpl.
  rewrite app_nil_r, Hsubs, Hsubs1. done.
Qed.

(** X14: With a setup procedure configured and a device library context, the
    subscription whose task id is stored when the call begins is not
    active in any outcome of the call, be it returned, rejected or still
    waiting for an input; the call registers no subscription itself and
    leaves the stored task id as it is. *)
Theorem selectAndSetupDevice_pauses_watcher
    (device : Device) (inputs : list JsValue) (setup : DeviceSetup)
    (id : nat) (w : World) :
  deviceLibContext env = true →
  deviceSetup (getAppConfig env) = Some setup →
  hotplugTaskId w = Some id →
  (id ∉ subscriptions (selectAndSetupDevice env device inputs w).2)
  ∧ subscriptions (selectAndSetupDevice env device inputs w).2
    ⊆ subscriptions w
  ∧ hotplugTaskId (selectAndSetupDevice env device inputs w).2 = Some id.
Proof.
  intros Hctx Hcfg Hid.
  rewrite (selectAndSetupDevice_with_setup _ _ _ _ _ Hcfg).
  unfold mbind, M_bind.
  destruct (beforeSetup env device w) as [c0 w0] eqn:Hpre.
  destruct (beforeSetup_any _ _ _ _ Hpre)
    as (_ & Hsubs & Htask & _ & Hgone).
  specialize (Hgone Hctx id Hid).
  destruct c0 as [[]|e|]; simpl; [| by rewrite Htask | by rewrite Htask].
  destruct (trySetup env device (deviceSetupConfig setup) inputs w0)
    as [c w'] eqn:Htry.
  destruct (trySetup_any _ _ _ _ _ _ Htry) as (Hs & Hi & _).
  simpl. rewrite Hs, Hi, Htask. done.
Qed.

(** X15: DEVICE_SELECTED with the given device is the first notification of
    every call, whatever the configuration and however the call ends. *)
Theorem selectAndSetupDevice_selects_first
    (device : Device) (inputs : list JsValue) (w : World) :
  notifications w ++ [DEVICE_SELECTED device]
    `prefix_of` notifications (selectAndSetupDevice env device inputs w).2.
Proof.
  destruct (deviceSetup (getAppConfig env)) as [setup|] eqn:Hcfg.
  - rewrite (selectAndSetupDevice_with_setup _ _ _ _ _ Hcfg).
    unfold mbind, M_bind.
    destruct (beforeSetup env device w) as [c0 w0] eqn:Hpre.
    destruct (beforeSetup_any _ _ _ _ Hpre) as (Hn & _).
    destruct c0 as [[]|e|]; simpl; [| by rewrite Hn | by rewrite Hn].
    destruct (trySetup env device (deviceSetupConfig setup) inputs w0)
      as [c w'] eqn:Htry.
    destruct (trySetup_any _ _ _ _ _ _ Htry) as (_ & _ & Hpre').
    simpl. by rewrite <- Hn.
  - unfold selectAndSetupDevice. rewrite Hcfg.
    unfold dispatch, modify, mbind, M_bind, mret, M_ret. simpl.
    by observe.
Qed.

End Setup.

Section Invariant.

Context (env : Env).

(** ** The slot and its promise *)

Lemma slotPending_same w w' :
  deviceSetupCallback w' = deviceSetupCallback w →
  promises w' = promises w →
  slotPending w → slotPending w'.
Proof. unfold slotPending. intros -> ->. done. Qed.

Lemma slotPending_empty w : deviceSetupCallback w = None → slotPending w.
Proof. unfold slotPending. by intros ->. Qed.

Lemma slotPending_requested message choices w :
  slotPending (requested message choices w).
Proof.
  unfold slotPending, requested. simpl. intros cb [= <-]. simpl.
  apply lookup_insert_eq.
Qed.

Lemma prompt_slotPending handler message choices inputs w c w' :
  slotPending w →
  prompt env handler message choices inputs w = (c, w') →
  slotPending w'.
Proof.
  intros Hslot. destruct handler as [|f]; simpl.
  - destruct inputs as [|input rest].
    + rewrite (bind_normal _ _ _ _ _
                 (getDeviceSetupUserInput_first env message choices w)).
      intros [= _ <-]. apply slotPending_requested.
    + destruct (request_then_input env message choices input w)
        as (w1 & Hrun & _ & _ & _ & Hcb & _).
      revert Hrun. unfold mbind, M_bind.
      destruct (getDeviceSetupUserInput env message choices w)
        as [[p|?|] w2]; try done.
      destruct (deviceSetupInputReceived env input w2) as [[[]|?|] w3];
        try done.
      unfold mret, M_ret. intros [= -> ->].
      unfold try_catch, awaitPromise, get, await, throw, suspend, mbind,
        M_bind, mret, M_ret.
      simpl. intros Hrun. apply slotPending_empty.
      repeat case_match; simplify_eq; done.
  - intros [= _ <-]. done.
Qed.

Lemma runSetup_slotPending config proc :
  ∀ inputs w c w',
    slotPending w →
    runSetup env config proc inputs w = (c, w') →
    slotPending w'.
Proof.
  induction proc as [prepared|error|message k IH|message choices k IH];
    intros inputs w c w' Hslot; simpl.
  - by intros [= _ <-].
  - by intros [= _ <-].
  - unfold mbind, M_bind.
    destruct (prompt env (promiseConfirm config) message None inputs w)
      as [[[s rest]|e|] w1] eqn:Hprompt;
      apply prompt_slotPending in Hprompt; try done.
    + by apply IH.
    + by intros [= _ <-].
    + by intros [= _ <-].
  - unfold mbind, M_bind.
    destruct (prompt env (promiseChoice config) message (Some choices)
                inputs w) as [[[s rest]|e|] w1] eqn:Hprompt;
      apply prompt_slotPending in Hprompt; try done.
    + by apply IH.
    + by intros [= _ <-].
    + by intros [= _ <-].
Qed.

Lemma trySetup_slotPending device config inputs w c w' :
  slotPending w →
  trySetup env device config inputs w = (c, w') →
  slotPending w'.
Proof.
  intros Hslot. unfold trySetup, try_catch, mbind, M_bind.
  destruct (runSetup env config (prepareDevice env device config) inputs w)
    as [[prepared|e|] w1] eqn:Hrun;
    apply runSetup_slotPending in Hrun; try done.
  - unfold startWatchingDevices, enumerate, dispatch, modify, mbind, M_bind.
    simpl. intros [= _ <-]. by eapply slotPending_same.
  - unfold startWatchingDevices, enumerate, dispatch, logger_error, modify,
      mbind, M_bind, mret, M_ret.
    destruct (allowCustomDevice config); simpl; intros [= _ <-];
      by eapply slotPending_same.
  - by intros [= _ <-].
Qed.

Lemma beforeSetup_slotPending device w c w' :
  slotPending w →
  beforeSetup env device w = (c, w') →
  slotPending w'.
Proof.
  intros Hslot. unfold beforeSetup.
  rewrite (bind_normal _ _ _ _ _ (dispatch_plain _ _ _)).
  match goal with
  | |- context [mbind _ (stopWatchingDevices env) ?w0] =>
      destruct (stopWatchingDevices_returns env w0)
        as (w1 & Hstop & _ & _ & Hcb & _ & Hp & _)
  end.
  rewrite (bind_normal _ _ _ _ _ Hstop).
  assert (slotPending w1) as Hslot1 by (by eapply slotPending_same).
  unfold dispatch, mbind, M_bind, throw, mret, M_ret, modify, await.
  destruct (dispatchUndefinedError env); simpl.
  { by intros [= _ <-]. }
  destruct (releaseCurrentDevice (getAppConfig env)) as [[[]|e]|]; simpl;
    intros [= _ <-]; try done; by eapply slotPending_same.
Qed.

(** X19: whenever the slot holds a callback, the promise it settles is
    still unsettled, so a callback never meets a promise that was settled
    before.  A request establishes this, and every operation of the module
    keeps it, however it ends: selecting and setting up a device, a
    received input, starting, an enumeration settling, stopping. *)
Theorem slotPending_kept
    (device : Device) (inputs : list JsValue) (input : JsValue)
    (message : string) (choices : option (list string))
    (r : Settlement (list RawDevice)) (w : World) :
  slotPending (getDeviceSetupUserInput env message choices w).2
  ∧ (slotPending w →
     slotPending (selectAndSetupDevice env device inputs w).2
     ∧ slotPending (deviceSetupInputReceived env input w).2
     ∧ slotPending (startWatchingDevices env w).2
     ∧ slotPending (enumerationSettled env r w).2
     ∧ slotPending (stopWatchingDevices env w).2).
Proof.
  split; [apply slotPending_requested|]. intros Hslot.
  split; [| split; [| split; [| split]]].
  - destruct (deviceSetup (getAppConfig env)) as [setup|] eqn:Hcfg.
    + rewrite (selectAndSetupDevice_with_setup _ _ _ _ _ Hcfg).
      unfold mbind, M_bind.
      destruct (beforeSetup env device w) as [c0 w0] eqn:Hpre.
      apply beforeSetup_slotPending in Hpre; [|done].
      destruct c0 as [[]|e|]; simpl; try done.
      destruct (trySetup env device (deviceSetupConfig setup) inputs w0)
        as [c w'] eqn:Htry.
      by apply trySetup_slotPending in Htry.
    + unfold selectAndSetupDevice. rewrite Hcfg.
      unfold dispatch, modify, mbind, M_bind, mret, M_ret. simpl.
      by eapply slotPending_same.
  - destruct (deviceSetupInputReceived_any env input w)
      as (w' & -> & _ & Hcb & _).
    by apply slotPending_empty.
  - unfold startWatchingDevices, enumerate, modify, mbind, M_bind. simpl.
    by eapply slotPending_same.
  - unfold enumerationSettled, get, modify, mbind, M_bind. simpl.
    destruct (pending w) as [|[] rest]; simpl; [done| |].
    + destruct r as [raw|e].
      * destruct (updateDeviceList_publishes env raw (set_pending rest w))
          as (w1 & Hrun & _ & _ & _ & Hcb & Hp).
        unfold startWatchingDevices_resume, try_catch.
        rewrite (bind_normal _ _ _ _ _ Hrun).
        unfold startHotplugEvents, logger_error, throw, modify, mbind,
          M_bind.
        destruct (startHotplugEventsError env); simpl;
          eapply slotPending_same; try exact Hslot; simpl; done.
      * rewrite startWatchingDevices_resume_rejected. simpl.
        by eapply slotPending_same.
    + destruct r as [raw|e].
      * destruct (updateDeviceList_publishes env raw (set_pending rest w))
          as (w1 & -> & _ & _ & _ & Hcb & Hp).
        simpl. eapply slotPending_same; try exact Hslot; done.
      * rewrite updateDeviceList_rejected. simpl.
        by eapply slotPending_same.
  - destruct (stopWatchingDevices_returns env w)
      as (w' & -> & _ & _ & Hcb & _ & Hp & _).
    simpl. by eapply slotPending_same.
Qed.

(** X13: with a setup procedure configured, a call that gets past the
    release step and settles has returned normally, whatever the setup
    procedure did: no error of the procedure reaches the caller.  It has
    called [startWatchingDevices] exactly once, which awaits its
    enumeration, and has registered no subscription itself. *)
Theorem selectAndSetupDevice_settles_restarted
    (device : Device) (inputs : list JsValue) (setup : DeviceSetup)
    (w w0 : World) :
  deviceSetup (getAppConfig env) = Some setup →
  beforeSetup env device w = (Normal tt, w0) →
  settled (selectAndSetupDevice env device inputs w).1 = true →
  (selectAndSetupDevice env device inputs w).1 = Normal tt
  ∧ pending (selectAndSetupDevice env device inputs w).2
    = pending w ++ [AwaitingStart]
  ∧ libCalls (selectAndSetupDevice env device inputs w).2
    = libCalls w0 ++ [Enumerate (selectorTraits (getAppConfig env))]
  ∧ subscriptions (selectAndSetupDevice env device inputs w).2
    ⊆ subscriptions w.
Proof.
  intros Hcfg Hpre Hsettled.
  destruct (selectAndSetupDevice env device inputs w) as [c w'] eqn:Hrun.
  destruct (selectAndSetupDevice_restarts _ _ _ _ _ _ _ _ Hcfg Hpre Hrun
              Hsettled) as (-> & Hpend & Hcalls & Hsubs).
  destruct (beforeSetup_any _ _ _ _ _ Hpre) as (_ & Hsub0 & _ & Hp0 & _).
  simpl. rewrite Hpend, Hcalls, Hsubs, Hp0. done.
Qed.

(** X16: [stopWatchingDevices()] returns nothing, so
    [dispatch(stopWatchingDevices())] hands [undefined] to the store.  With
    a store that throws on it and a setup procedure configured, every call
    rejects with the store's error right after the watcher was stopped:
    DEVICE_SELECTED is the only notification, the setup procedure is never
    called, and nothing starts the watcher again. *)
Theorem selectAndSetupDevice_store_refuses_undefined
    (device : Device) (inputs : list JsValue) (setup : DeviceSetup)
    (e : JsError) (w : World) :
  deviceSetup (getAppConfig env) = Some setup →
  dispatchUndefinedError env = Some e →
  (selectAndSetupDevice env device inputs w).1 = Throw e
  ∧ notifications (selectAndSetupDevice env device inputs w).2
    = notifications w ++ [DEVICE_SELECTED device]
  ∧ pending (selectAndSetupDevice env device inputs w).2 = pending w
  ∧ deviceSetupCallback (selectAndSetupDevice env device inputs w).2
    = deviceSetupCallback w
  ∧ (deviceLibContext env = true →
     ∀ id, hotplugTaskId w = Some id →
       id ∉ subscriptions (selectAndSetupDevice env device inputs w).2).
Proof.
  intros Hcfg Hstore.
  rewrite (selectAndSetupDevice_with_setup _ _ _ _ _ Hcfg).
  destruct (beforeSetup env device w) as [c0 w0] eqn:Hpre.
  destruct (beforeSetup_any _ _ _ _ _ Hpre) as (Hn & _ & _ & Hp & Hgone).
  assert (c0 = Throw e ∧ deviceSetupCallback w0 = deviceSetupCallback w)
    as [-> Hcb].
  { revert Hpre. unfold beforeSetup.
    rewrite (bind_normal _ _ _ _ _ (dispatch_plain _ _ _)).
    match goal with
    | |- context [mbind _ (stopWatchingDevices env) ?w1] =>
        destruct (stopWatchingDevices_returns env w1)
          as (w2 & Hstop & _ & _ & Hcb & _)
    end.
    rewrite (bind_normal _ _ _ _ _ Hstop).
    unfold dispatch, mbind, M_bind, throw. rewrite Hstore.
    by intros [= <- <-]. }
  rewrite (bind_throw _ _ _ _ _ Hpre). simpl. done.
Qed.

End Invariant.

(** * The main process *)

(** [Array.prototype.find] returns the first element that satisfies the
    predicate. *)
Lemma find_first {A} (f : A → bool) (l : list A) (x : A) :
  List.find f l = Some x →
  ∃ i, l !! i = Some x ∧ f x = true
       ∧ ∀ j y, j < i → l !! j = Some y → f y = false.
Proof.
  induction l as [|a l IH]; simpl; [done|].
  destruct (f a) eqn:Hfa.
  - intros [= ->]. exists 0. repeat split; try done. lia.
  - intros Hfind. destruct (IH Hfind) as (i & Hi & Hfx & Hbefore).
    exists (S i). repeat split; try done.
    intros [|j] y Hj; simpl; [by intros [= <-]|].
    apply Hbefore. lia.
Qed.

Lemma find_nothing {A} (f : A → bool) (l : list A) :
  (∀ x, x ∈ l → f x = false) → List.find f l = None.
Proof.
  induction l as [|a l IH]; simpl; [done|]. intros Hall.
  rewrite (Hall a) by apply list_elem_of_here.
  apply IH. intros x Hx. apply Hall. by apply list_elem_of_further.
Qed.

Lemma append_empty (s : string) : s +:+ EmptyString = s.
Proof.
  induction s as [|c s IH]; [done|].
  change (String c (s +:+ EmptyString) = String c s). by rewrite IH.
Qed.

Lemma truthyString_true (s : string) :
  Main.truthyString s = true ↔ s ≠ EmptyString.
Proof.
  unfold Main.truthyString. rewrite negb_true_iff. apply String.eqb_neq.
Qed.

(** X17: The directory chosen for the nrfjprog libraries is the first of the
    four candidates, in the order of the array, that exists: it exists and
    every candidate before it does not. *)
Theorem nRFjprogSearchPath_first_existing
    (resolve : string → string → string) (existsSync : string → bool)
    (execPath cwd path : string) :
  Main.nRFjprogSearchPath resolve existsSync execPath cwd = Some path →
  ∃ i, Main.candidates resolve execPath cwd !! i = Some path
       ∧ existsSync path = true
       ∧ ∀ j earlier, j < i →
           Main.candidates resolve execPath cwd !! j = Some earlier →
           existsSync earlier = false.
Proof. apply find_first. Qed.

(** X18: When none of the four candidate directories exists, the environment
    is left exactly as it was: neither NRFJPROG_LIBRARY_PATH nor
    LD_LIBRARY_PATH is set or changed. *)
Theorem setLibraryPath_nothing_found
    (resolve : string → string → string) (existsSync : string → bool)
    (execPath cwd : string) (env : gmap string string) :
  (∀ p, p ∈ Main.candidates resolve execPath cwd → existsSync p = false) →
  Main.setLibraryPath resolve existsSync execPath cwd env = env.
Proof.
  intros Hnone. unfold Main.setLibraryPath, Main.nRFjprogSearchPath.
  by rewrite find_nothing.
Qed.

(** X20: When a candidate directory is found, NRFJPROG_LIBRARY_PATH becomes
    that directory and LD_LIBRARY_PATH begins with it: a previous
    non-empty LD_LIBRARY_PATH follows after a colon, and when it was unset
    or empty the new value is the directory alone, with no trailing colon.
    No other variable changes. *)
Theorem setLibraryPath_found
    (resolve : string → string → string) (existsSync : string → bool)
    (execPath cwd path : string) (env : gmap string string) :
  Main.nRFjprogSearchPath resolve existsSync execPath cwd = Some path →
  path ≠ EmptyString →
  let env' := Main.setLibraryPath resolve existsSync execPath cwd env in
  env' !! "NRFJPROG_LIBRARY_PATH" = Some path
  ∧ (∀ ld, env !! "LD_LIBRARY_PATH" = Some ld → ld ≠ EmptyString →
       env' !! "LD_LIBRARY_PATH" = Some (path +:+ ":" +:+ ld))
  ∧ (env !! "LD_LIBRARY_PATH" = None
     ∨ env !! "LD_LIBRARY_PATH" = Some EmptyString →
     env' !! "LD_LIBRARY_PATH" = Some path)
  ∧ (∀ k, k ≠ "NRFJPROG_LIBRARY_PATH" → k ≠ "LD_LIBRARY_PATH" →
       env' !! k = env !! k).
Proof.
  intros Hfound Hpath env'. subst env'. unfold Main.setLibraryPath.
  rewrite Hfound. apply truthyString_true in Hpath. rewrite Hpath.
  simpl. rewrite (lookup_insert_ne env) by done.
  split; [| split; [| split]].
  - by rewrite lookup_insert_ne, lookup_insert_eq.
  - intros ld Hld Hne. rewrite lookup_insert_eq, Hld.
    apply truthyString_true in Hne. by rewrite Hne.
  - intros [Hld | Hld]; rewrite lookup_insert_eq, Hld; simpl;
      by rewrite append_empty.
  - intros k Hk1 Hk2. by rewrite !lookup_insert_ne.
Qed.

(** X21: At start-up at most one window is opened and at most one error box is
    shown.  A window is opened exactly when the apps directory was
    initialised; the error box is absent exactly when both the
    initialisation and the opening of the window succeeded, and otherwise
    it is the last thing that happens.  A configured official app is
    opened whatever local app is configured. *)
Theorem onReady_outcome
    (config : Main.StartConfig) (initialised opened : Settlement unit) :
  let events := Main.onReady config initialised opened in
  length (List.filter Main.isWindow events) ≤ 1
  ∧ length (List.filter Main.isErrorBox events) ≤ 1
  ∧ (List.filter Main.isWindow events = [Main.windowToOpen config]
     ↔ ∃ u, initialised = Fulfilled u)
  ∧ (List.filter Main.isErrorBox events = []
     ↔ ∃ u u', initialised = Fulfilled u ∧ opened = Fulfilled u')
  ∧ (∀ e, initialised = Rejected e →
       last events = Some (Main.ShowErrorBox (message e)))
  ∧ (∀ u e, initialised = Fulfilled u → opened = Rejected e →
       last events = Some (Main.ShowErrorBox (message e)))
  ∧ (∀ name, Main.named (Main.getOfficialAppName config) = Some name →
       Main.windowToOpen config
       = Main.OpenOfficialAppWindow name (Main.getSourceName config)).
Proof.
  intros events. subst events. unfold Main.onReady.
  assert (Main.isWindow (Main.windowToOpen config) = true) as Hwin.
  { unfold Main.windowToOpen. by repeat case_match. }
  assert (Main.isErrorBox (Main.windowToOpen config) = false) as Herr.
  { unfold Main.windowToOpen. by repeat case_match. }
  assert (∀ name,
            Main.named (Main.getOfficialAppName config) = Some name →
            Main.windowToOpen config
            = Main.OpenOfficialAppWindow name (Main.getSourceName config))
    as Hofficial.
  { intros name Hname. unfold Main.windowToOpen. by rewrite Hname. }
  destruct initialised as [[]|e0], opened as [[]|e1]; simpl;
    rewrite ?Hwin, ?Herr; simpl.
  - repeat split; try done; try lia.
    + by exists tt.
    + by exists tt, tt.
  - repeat split; try done; try lia.
    + by exists tt.
    + by intros (? & ? & _ & ?).
    + by intros u e _ [= <-].
  - repeat split; try done; try lia.
    + by intros [? ?].
    + by intros (? & ? & ? & _).
    + by intros e [= <-].
  - repeat split; try done; try lia.
    + by intros [? ?].
    + by intros (? & ? & ? & _).
    + by intros e [= <-].
Qed.

(** * The scenarios, evaluated *)

Import Scenario.

(** C1 at a failing input: the watcher is active (subscription 0) and A is
    selected with a setup procedure configured whose release step rejects
    with [busy].  The call stops the watcher and then rejects with [busy]:
    the subscription is gone, no enumeration was called and no
    [startWatchingDevices] is awaiting one, so nothing will start the
    watcher again. *)
Theorem release_rejected_watcher_stays_stopped :
  subscriptions watchingA = {[0]}
  ∧ (selectAndSetupDevice busy deviceA [] watchingA).1
    = Throw (Error "busy")
  ∧ subscriptions (selectAndSetupDevice busy deviceA [] watchingA).2 = ∅
  ∧ pending (selectAndSetupDevice busy deviceA [] watchingA).2 = []
  ∧ libCalls (selectAndSetupDevice busy deviceA [] watchingA).2
    = libCalls watchingA ++ [StopHotplugEvents (Some 0)].
Proof. vm_compute. done. Qed.

(** C2 at a failing input: with a release step that rejects with [busy],
    [selectAndSetupDevice] rejects with [busy] for its caller, and the only
    notification it emitted is DEVICE_SELECTED: no DEVICE_SETUP_ERROR. *)
Theorem release_rejected_reaches_caller :
  (selectAndSetupDevice busy deviceA [] initialWorld).1
  = Throw (Error "busy")
  ∧ notifications (selectAndSetupDevice busy deviceA [] initialWorld).2
    = [DEVICE_SELECTED deviceA].
Proof. vm_compute. done. Qed.

(** Against C3 as stated: after two consecutive starts with no stop in
    between, two subscriptions are active, not at most one. *)
Lemma two_starts_two_subscriptions :
  subscriptions startedTwice = {[0; 1]}
  ∧ ¬ (size (subscriptions startedTwice) ≤ 1).
Proof.
  assert (subscriptions startedTwice = {[0; 1]}) as H
    by (vm_compute; done).
  split; [done|]. rewrite H. vm_compute. lia.
Qed.

(** Against C5 as stated: a confirmation (no choices) answered with
    [false] is fulfilled with [false]; it is not rejected. *)
Lemma confirmation_declined_is_fulfilled :
  deviceSetupCallback askedToConfirm
  = Some {| cb_choices := None; cb_promise := 0 |}
  ∧ promises askedToConfirm !! 0 = Some None
  ∧ promises
      (deviceSetupInputReceived appWithoutSetup (JsBool false)
         askedToConfirm).2 !! 0
    = Some (Some (Fulfilled (JsBool false)))
  ∧ ¬ (∃ e, promises
              (deviceSetupInputReceived appWithoutSetup (JsBool false)
                 askedToConfirm).2 !! 0
            = Some (Some (Rejected e))).
Proof.
  assert (promises
            (deviceSetupInputReceived appWithoutSetup (JsBool false)
               askedToConfirm).2 !! 0
          = Some (Some (Fulfilled (JsBool false)))) as H
    by (vm_compute; done).
  repeat split; try (vm_compute; done).
  intros [e He]. rewrite H in He. discriminate.
Qed.

(** Against C6 as stated: with no request pending, the call still emits
    a notification, DEVICE_SETUP_INPUT_RECEIVED. *)
Lemma input_without_request_is_dispatched :
  deviceSetupCallback initialWorld = None
  ∧ notifications
      (deviceSetupInputReceived appWithoutSetup (JsBool true)
         initialWorld).2
    = [DEVICE_SETUP_INPUT_RECEIVED (JsBool true)]
  ∧ notifications
      (deviceSetupInputReceived appWithoutSetup (JsBool true)
         initialWorld).2
    ≠ notifications initialWorld.
Proof. vm_compute. repeat split; done. Qed.


Lemma selectAndSetupDevice_without_setup_witness :
  deviceSetup (getAppConfig appWithoutSetup) = None
  ∧ ∃ w', selectAndSetupDevice appWithoutSetup deviceA [] watchingA
          = (Normal tt, w')
          ∧ trace w' = trace watchingA ++ [Dispatched (DEVICE_SELECTED deviceA)]
          ∧ notifications w'
            = notifications watchingA ++ [DEVICE_SELECTED deviceA]
          ∧ hotplugTaskId w' = hotplugTaskId watchingA
          ∧ subscriptions w' = subscriptions watchingA
          ∧ pending w' = pending watchingA
          ∧ deviceSetupCallback w' = deviceSetupCallback watchingA
          ∧ promises w' = promises watchingA.
Proof.
  split; [reflexivity|].
  apply (selectAndSetupDevice_without_setup appWithoutSetup deviceA []
           watchingA).
  reflexivity.
Defined.

(** Scenario A of the specification: A and B detected, A selected, the next
    enumeration has only B. *)
Lemma updateDeviceList_deselects_first_witness :
  selectedSerialNumber (state watchingA) = Some "A"
  ∧ ∃ w', updateDeviceList appWithoutSetup (Fulfilled [rawB]) watchingA
          = (Normal tt, w')
          ∧ trace w' = trace watchingA
              ++ [Dispatched DEVICE_DESELECTED;
                  Dispatched (DEVICES_DETECTED [deviceB])].
Proof.
  split; [reflexivity|].
  destruct (updateDeviceList_deselects_first appWithoutSetup [rawB]
              watchingA) as (w' & Hrun & Hlost & _).
  exists w'. split; [exact Hrun|].
  apply (Hlost "A"); [reflexivity|].
  intros d Hd. apply list_elem_of_singleton in Hd. rewrite Hd. discriminate.
Defined.

Lemma deviceSetupInputReceived_no_callback_witness :
  deviceSetupCallback initialWorld = None
  ∧ ∃ w', deviceSetupInputReceived appWithoutSetup (JsBool true)
            initialWorld = (Normal tt, w')
    ∧ trace w' = trace initialWorld ++
        [Dispatched (DEVICE_SETUP_INPUT_RECEIVED (JsBool true));
         LoggedError "Received device setup input, but no callback exists."]
    ∧ deviceSetupCallback w' = None
    ∧ hotplugTaskId w' = hotplugTaskId initialWorld
    ∧ subscriptions w' = subscriptions initialWorld
    ∧ promises w' = promises initialWorld
    ∧ pending w' = pending initialWorld
    ∧ state w' = state initialWorld.
Proof.
  split; [reflexivity|].
  apply (deviceSetupInputReceived_no_callback appWithoutSetup (JsBool true)
           initialWorld).
  reflexivity.
Defined.

Lemma deviceSetupCallback_invoked_once_witness :
  deviceSetupCallback askedToConfirm
  = Some {| cb_choices := None; cb_promise := 0 |}
  ∧ ∃ w1 w2,
      deviceSetupInputReceived appWithoutSetup (JsBool true) askedToConfirm
      = (Normal tt, w1)
      ∧ deviceSetupCallback w1 = None
      ∧ deviceSetupInputReceived appWithoutSetup (JsBool false) w1
        = (Normal tt, w2)
      ∧ trace w2 = trace w1 ++
          [Dispatched (DEVICE_SETUP_INPUT_RECEIVED (JsBool false));
           LoggedError
             "Received device setup input, but no callback exists."]
      ∧ promises w2 = promises w1
      ∧ deviceSetupCallback w2 = None.
Proof.
  split; [reflexivity|].
  apply (deviceSetupCallback_invoked_once appWithoutSetup
           {| cb_choices := None; cb_promise := 0 |}
           (JsBool true) (JsBool false) askedToConfirm).
  reflexivity.
Defined.

(** Scenario B of the specification: the user picks DFU. *)
Lemma deviceSetupInputReceived_settles_witness :
  deviceSetupCallback askedToChoose
  = Some {| cb_choices := Some ["DFU"; "Normal"]; cb_promise := 0 |}
  ∧ promises askedToChoose !! 0 = Some None
  ∧ ∃ w', deviceSetupInputReceived appWithoutSetup (JsString "DFU")
            askedToChoose = (Normal tt, w')
          ∧ promises w' !! 0 = Some (Some (Fulfilled (JsString "DFU"))).
Proof.
  split; [reflexivity|]. split; [reflexivity|].
  destruct (deviceSetupInputReceived_settles appWithoutSetup
              {| cb_choices := Some ["DFU"; "Normal"]; cb_promise := 0 |}
              (JsString "DFU") askedToChoose eq_refl eq_refl)
    as (w' & Hrun & _ & Hchosen & _).
  exists w'. split; [exact Hrun|].
  apply Hchosen; [by eexists | reflexivity].
Defined.

Lemma startWatchingDevices_twice_witness :
  startHotplugEventsError appWithoutSetup = None
  ∧ pending initialWorld = []
  ∧ ∃ w', (startWatchingDevices appWithoutSetup ;;
           enumerationSettled appWithoutSetup (Fulfilled [rawA]) ;;
           startWatchingDevices appWithoutSetup ;;
           enumerationSettled appWithoutSetup (Fulfilled [rawA]))
            initialWorld = (Normal tt, w')
          ∧ subscriptions w' = {[1]} ∪ ({[0]} ∪ ∅)
          ∧ 0 ∈ subscriptions w' ∧ 1 ∈ subscriptions w' ∧ 0 ≠ 1
          ∧ hotplugTaskId w' = Some 1
          ∧ libCalls w' = [Enumerate ["jlink"]; StartHotplugEvents 0;
                           Enumerate ["jlink"]; StartHotplugEvents 1].
Proof.
  split; [reflexivity|]. split; [reflexivity|].
  apply (startWatchingDevices_twice appWithoutSetup [rawA] [rawA]
           initialWorld); reflexivity.
Defined.

(** Scenario C of the specification: the setup procedure throws
    [flash failed] and [allowCustomDevice] is absent; the new start then
    gets its enumeration and the watcher is active again. *)
Lemma selectAndSetupDevice_setup_throws_witness :
  deviceSetup (getAppConfig failing)
  = Some {| ds_promiseConfirm := None; ds_promiseChoice := None;
            ds_allowCustomDevice := None |}
  ∧ beforeSetup failing deviceA initialWorld = (Normal tt, pausedA)
  ∧ ∃ w', selectAndSetupDevice failing deviceA [] initialWorld
          = (Normal tt, w')
          ∧ pending w' = [AwaitingStart]
          ∧ notifications w'
            = [DEVICE_SELECTED deviceA;
               DEVICE_SETUP_ERROR deviceA (Error "flash failed");
               DEVICE_DESELECTED]
          ∧ selectedSerialNumber (state w') = None
          ∧ ∃ w'', enumerationSettled failing (Fulfilled [rawA]) w'
                   = (Normal tt, w'')
              ∧ hotplugTaskId w'' = Some (nextTaskId w')
              ∧ nextTaskId w' ∈ subscriptions w''
              ∧ last (notifications w'')
                = Some (DEVICES_DETECTED [deviceA]).
Proof.
  split; [reflexivity|]. split; [reflexivity|].
  destruct (selectAndSetupDevice_setup_throws failing deviceA []
              {| ds_promiseConfirm := None; ds_promiseChoice := None;
                 ds_allowCustomDevice := None |}
              (Error "flash failed") initialWorld pausedA pausedA
              eq_refl eq_refl eq_refl)
    as (w' & Hrun & Hpend & _ & Hstrict & _ & Hrestart).
  destruct (Hstrict (or_introl eq_refl)) as [Hn Hsel].
  destruct (Hrestart eq_refl eq_refl [rawA])
    as (w'' & Hsettled & Hid & Hin & _ & Hlast & _).
  exists w'. split; [exact Hrun|]. split; [exact Hpend|].
  split; [exact Hn|]. split; [exact Hsel|].
  exists w''. split; [exact Hsettled|]. split; [exact Hid|].
  split; [exact Hin | exact Hlast].
Defined.

(** Scenario B of the specification: the procedure asks to pick a mode,
    the user picks DFU, the setup completes and the watcher is started
    again. *)
Example scenario_choice_completes :
  (selectAndSetupDevice (appWith pickMode None None) deviceA
     [JsString "DFU"] initialWorld).1 = Normal tt
  ∧ notifications
      (selectAndSetupDevice (appWith pickMode None None) deviceA
         [JsString "DFU"] initialWorld).2
    = [DEVICE_SELECTED deviceA;
       DEVICE_SETUP_INPUT_REQUIRED "Pick mode" (Some ["DFU"; "Normal"]);
       DEVICE_SETUP_INPUT_RECEIVED (JsString "DFU");
       DEVICE_SETUP_COMPLETE deviceA]
  ∧ pending
      (selectAndSetupDevice (appWith pickMode None None) deviceA
         [JsString "DFU"] initialWorld).2 = [AwaitingStart].
Proof. vm_compute. done. Qed.

(** A prompt nobody answers: the call does not settle and the watcher
    stays stopped meanwhile. *)
Example scenario_unanswered_prompt :
  (selectAndSetupDevice (appWith pickMode None None) deviceA []
     watchingA).1 = Suspended
  ∧ subscriptions
      (selectAndSetupDevice (appWith pickMode None None) deviceA []
         watchingA).2 = ∅
  ∧ pending
      (selectAndSetupDevice (appWith pickMode None None) deviceA []
         watchingA).2 = [].
Proof. vm_compute. done. Qed.

(** The restart of scenario B comes to an active subscription once the
    enumeration is fulfilled. *)
Example scenario_restart_active :
  subscriptions
    ((selectAndSetupDevice (appWith pickMode None None) deviceA
        [JsString "DFU"] ;;
      enumerationSettled (appWith pickMode None None)
        (Fulfilled [rawA])) watchingA).2 = {[1]}
  ∧ hotplugTaskId
      ((selectAndSetupDevice (appWith pickMode None None) deviceA
          [JsString "DFU"] ;;
        enumerationSettled (appWith pickMode None None)
          (Fulfilled [rawA])) watchingA).2 = Some 1.
Proof. vm_compute. done. Qed.

(** After two starts only the second task id is known to the module: a
    stop ends that subscription and the first one goes on, its hotplug
    events still asking for enumerations. *)
Example scenario_first_subscription_outlives_stop :
  subscriptions (stopWatchingDevices appWithoutSetup startedTwice).2 = {[0]}
  ∧ pending
      ((stopWatchingDevices appWithoutSetup ;;
        hotplugEvent appWithoutSetup 0) startedTwice).2
    = [AwaitingHotplugUpdate].
Proof. vm_compute. done. Qed.

(** * More theorems at concrete inputs *)

Lemma wrapDevices_fields_witness :
  [rawA; rawB] !! 0 = Some rawA
  ∧ ∃ d', wrapDevices [rawA; rawB] !! 0 = Some d'
          ∧ serialNumber d' = Some "A"
          ∧ serialport d' = Some "COM1".
Proof.
  split; [reflexivity|].
  destruct (wrapDevices_fields [rawA; rawB]) as [_ Hfields].
  destruct (Hfields 0 rawA eq_refl)
    as (d' & Hd & Hserial & _ & _ & Hport & _).
  exists d'. split; [exact Hd|]. split; [exact Hserial|].
  apply Hport. by eexists.
Defined.

Lemma startWatchingDevices_enumeration_rejected_witness :
  pending initialWorld = []
  ∧ ∃ w', (startWatchingDevices appWithoutSetup ;;
           enumerationSettled appWithoutSetup (Rejected (Error "timeout")))
            initialWorld = (Normal tt, w')
          ∧ notifications w' = []
          ∧ logged w' = ["Error while probing devices: timeout"]
          ∧ subscriptions w' = ∅
          ∧ hotplugTaskId w' = None.
Proof.
  split; [reflexivity|].
  destruct (startWatchingDevices_enumeration_rejected appWithoutSetup
              (Error "timeout") initialWorld eq_refl)
    as (w' & Hrun & Hn & Hlog & _ & Hsubs & Hid & _).
  exists w'. repeat split; assumption.
Defined.

Lemma startWatchingDevices_subscription_refused_witness :
  startHotplugEventsError More.refusing = Some (Error "No hotplug support")
  ∧ pending initialWorld = []
  ∧ ∃ w', (startWatchingDevices More.refusing ;;
           enumerationSettled More.refusing (Fulfilled [rawA]))
            initialWorld = (Normal tt, w')
          ∧ last (notifications w') = Some (DEVICES_DETECTED [deviceA])
          ∧ logged w'
            = ["Error while probing devices: No hotplug support"]
          ∧ subscriptions w' = ∅
          ∧ hotplugTaskId w' = None.
Proof.
  split; [reflexivity|]. split; [reflexivity|].
  destruct (startWatchingDevices_subscription_refused More.refusing
              (Error "No hotplug support") [rawA] initialWorld
              eq_refl eq_refl)
    as (w' & Hrun & Hn & Hlog & Hsubs & Hid).
  exists w'. repeat split; assumption.
Defined.

Lemma hotplugEvent_publishes_witness :
  0 ∈ subscriptions watchingA
  ∧ pending watchingA = []
  ∧ ∃ w', (hotplugEvent appWithoutSetup 0 ;;
           enumerationSettled appWithoutSetup (Fulfilled [rawB]))
            watchingA = (Normal tt, w')
          ∧ last (notifications w') = Some (DEVICES_DETECTED [deviceB])
          ∧ subscriptions w' = subscriptions watchingA
          ∧ hotplugTaskId w' = hotplugTaskId watchingA.
Proof.
  assert (0 ∈ subscriptions watchingA) as Hin.
  { assert (subscriptions watchingA = {[0]}) as -> by (vm_compute; done).
    apply elem_of_singleton. reflexivity. }
  split; [exact Hin|]. split; [reflexivity|].
  destruct (hotplugEvent_publishes appWithoutSetup 0 [rawB] watchingA
              Hin eq_refl)
    as (w' & Hrun & Hn & _ & Hsubs & Hid & _).
  exists w'. repeat split; assumption.
Defined.

Lemma hotplugEvent_enumeration_rejected_witness :
  0 ∈ subscriptions watchingA
  ∧ pending watchingA = []
  ∧ ∃ w', (hotplugEvent appWithoutSetup 0 ;;
           enumerationSettled appWithoutSetup (Rejected (Error "timeout")))
            watchingA = (Throw (Error "timeout"), w')
          ∧ notifications w' = notifications watchingA
          ∧ logged w' = logged watchingA.
Proof.
  assert (0 ∈ subscriptions watchingA) as Hin.
  { assert (subscriptions watchingA = {[0]}) as -> by (vm_compute; done).
    apply elem_of_singleton. reflexivity. }
  split; [exact Hin|]. split; [reflexivity|].
  destruct (hotplugEvent_enumeration_rejected appWithoutSetup 0
              (Error "timeout") watchingA Hin eq_refl)
    as (w' & Hrun & Hn & Hlog & _).
  exists w'. repeat split; assumption.
Defined.

Lemma start_then_stop_witness :
  deviceLibContext appWithoutSetup = true
  ∧ startHotplugEventsError appWithoutSetup = None
  ∧ pending initialWorld = []
  ∧ ∃ w', (startWatchingDevices appWithoutSetup ;;
           enumerationSettled appWithoutSetup (Fulfilled [rawA]) ;;
           stopWatchingDevices appWithoutSetup) initialWorld
          = (Normal tt, w')
          ∧ (0 ∉ subscriptions w')
          ∧ hotplugTaskId w' = Some 0
          ∧ logged w' = []
          ∧ ∃ w1, stopWatchingDevices appWithoutSetup w1 = (Normal tt, w')
              ∧ 0 ∈ subscriptions w1
              ∧ notifications w' = notifications w1.
Proof.
  split; [reflexivity|]. split; [reflexivity|]. split; [reflexivity|].
  destruct (start_then_stop appWithoutSetup [rawA] initialWorld
              eq_refl eq_refl eq_refl)
    as (w' & Hrun & Hout & _ & Hid & Hlog & w1 & _ & Hin & Hstop & Hn & _).
  exists w'. split; [exact Hrun|]. split; [exact Hout|].
  split; [exact Hid|]. split; [exact Hlog|].
  exists w1. split; [exact Hstop|]. split; [exact Hin | exact Hn].
Defined.

Lemma stopWatchingDevices_twice_witness :
  deviceLibContext appWithoutSetup = true
  ∧ hotplugTaskId watchingA = Some 0
  ∧ 0 ∈ subscriptions watchingA
  ∧ ∃ w1 w2,
      stopWatchingDevices appWithoutSetup watchingA = (Normal tt, w1)
      ∧ hotplugTaskId w1 = Some 0
      ∧ stopWatchingDevices appWithoutSetup w1 = (Normal tt, w2)
      ∧ logged w2 = logged watchingA
          ++ ["Error while stop watching devices: Invalid task id"].
Proof.
  assert (0 ∈ subscriptions watchingA) as Hin.
  { assert (subscriptions watchingA = {[0]}) as -> by (vm_compute; done).
    apply elem_of_singleton. reflexivity. }
  split; [reflexivity|]. split; [reflexivity|]. split; [exact Hin|].
  destruct (stopWatchingDevices_twice appWithoutSetup 0 watchingA
              eq_refl eq_refl Hin)
    as (w1 & w2 & Hrun1 & _ & Hid & Hrun2 & _ & _ & Hlog & _).
  exists w1, w2. repeat split; assumption.
Defined.

Lemma selectAndSetupDevice_setup_returns_witness :
  deviceSetup (getAppConfig More.ready)
  = Some {| ds_promiseConfirm := None; ds_promiseChoice := None;
            ds_allowCustomDevice := None |}
  ∧ beforeSetup More.ready deviceA watchingA
    = (Normal tt, More.pausedReady)
  ∧ ∃ w', selectAndSetupDevice More.ready deviceA [] watchingA
          = (Normal tt, w')
          ∧ notifications w' = notifications More.pausedReady
              ++ [DEVICE_SETUP_COMPLETE deviceA]
          ∧ pending w' = [AwaitingStart]
          ∧ subscriptions w' = subscriptions More.pausedReady.
Proof.
  split; [reflexivity|]. split; [reflexivity|].
  destruct (selectAndSetupDevice_setup_returns More.ready deviceA deviceA []
              {| ds_promiseConfirm := None; ds_promiseChoice := None;
                 ds_allowCustomDevice := None |}
              watchingA More.pausedReady More.pausedReady
              eq_refl eq_refl eq_refl)
    as (w' & Hrun & _ & Hn & _ & Hpend & _ & Hsubs).
  exists w'. repeat split; assumption.
Defined.

Lemma selectAndSetupDevice_pauses_watcher_witness :
  deviceLibContext (appWith pickMode None None) = true
  ∧ hotplugTaskId watchingA = Some 0
  ∧ (0 ∉ subscriptions
           (selectAndSetupDevice (appWith pickMode None None) deviceA []
              watchingA).2).
Proof.
  split; [reflexivity|]. split; [reflexivity|].
  apply (selectAndSetupDevice_pauses_watcher (appWith pickMode None None)
           deviceA []
           {| ds_promiseConfirm := None; ds_promiseChoice := None;
              ds_allowCustomDevice := None |}
           0 watchingA eq_refl eq_refl eq_refl).
Defined.

Lemma selectAndSetupDevice_settles_restarted_witness :
  beforeSetup More.ready deviceA watchingA = (Normal tt, More.pausedReady)
  ∧ settled (selectAndSetupDevice More.ready deviceA [] watchingA).1 = true
  ∧ (selectAndSetupDevice More.ready deviceA [] watchingA).1 = Normal tt
  ∧ pending (selectAndSetupDevice More.ready deviceA [] watchingA).2
    = [AwaitingStart].
Proof.
  split; [reflexivity|]. split; [reflexivity|].
  destruct (selectAndSetupDevice_settles_restarted More.ready deviceA []
              {| ds_promiseConfirm := None; ds_promiseChoice := None;
                 ds_allowCustomDevice := None |}
              watchingA More.pausedReady eq_refl eq_refl eq_refl)
    as (Hc & Hpend & _).
  split; [exact Hc | exact Hpend].
Defined.

Lemma selectAndSetupDevice_store_refuses_undefined_witness :
  dispatchUndefinedError More.strictStore
  = Some (Error "Actions must be plain objects.")
  ∧ (selectAndSetupDevice More.strictStore deviceA [] watchingA).1
    = Throw (Error "Actions must be plain objects.")
  ∧ pending (selectAndSetupDevice More.strictStore deviceA [] watchingA).2
    = []
  ∧ (0 ∉ subscriptions
           (selectAndSetupDevice More.strictStore deviceA [] watchingA).2).
Proof.
  split; [reflexivity|].
  destruct (selectAndSetupDevice_store_refuses_undefined More.strictStore
              deviceA []
              {| ds_promiseConfirm := None; ds_promiseChoice := None;
                 ds_allowCustomDevice := None |}
              (Error "Actions must be plain objects.") watchingA
              eq_refl eq_refl)
    as (Hc & _ & Hpend & _ & Hgone).
  split; [exact Hc|]. split; [exact Hpend|].
  apply Hgone; reflexivity.
Defined.

Lemma nRFjprogSearchPath_first_existing_witness :
  Main.nRFjprogSearchPath More.join More.inFrameworks "/app/bin" "/tmp"
  = Some "/app/bin/../../Frameworks/nrfjprog"
  ∧ ∃ i, Main.candidates More.join "/app/bin" "/tmp" !! i
         = Some "/app/bin/../../Frameworks/nrfjprog"
         ∧ More.inFrameworks "/app/bin/../../Frameworks/nrfjprog" = true.
Proof.
  split; [reflexivity|].
  destruct (nRFjprogSearchPath_first_existing More.join More.inFrameworks
              "/app/bin" "/tmp" "/app/bin/../../Frameworks/nrfjprog"
              eq_refl) as (i & Hi & Hex & _).
  exists i. split; assumption.
Defined.

Lemma setLibraryPath_nothing_found_witness :
  Main.setLibraryPath More.join More.nowhere "/app/bin" "/tmp"
    More.shellEnv = More.shellEnv.
Proof.
  apply (setLibraryPath_nothing_found More.join More.nowhere
           "/app/bin" "/tmp" More.shellEnv).
  intros p _. reflexivity.
Defined.

Lemma setLibraryPath_found_witness :
  Main.nRFjprogSearchPath More.join More.inFrameworks "/app/bin" "/tmp"
  = Some "/app/bin/../../Frameworks/nrfjprog"
  ∧ Main.setLibraryPath More.join More.inFrameworks "/app/bin" "/tmp"
      More.shellEnv !! "LD_LIBRARY_PATH"
    = Some "/app/bin/../../Frameworks/nrfjprog:/usr/lib"
  ∧ Main.setLibraryPath More.join More.inFrameworks "/app/bin" "/tmp"
      More.shellEnv !! "HOME" = Some "/home/user".
Proof.
  split; [reflexivity|].
  destruct (setLibraryPath_found More.join More.inFrameworks
              "/app/bin" "/tmp" "/app/bin/../../Frameworks/nrfjprog"
              More.shellEnv eq_refl)
    as (_ & Hld & _ & Hother); [discriminate|].
  split.
  - apply (Hld "/usr/lib"); [reflexivity | discriminate].
  - rewrite Hother by discriminate. reflexivity.
Defined.

Lemma slotPending_kept_witness :
  slotPending askedToConfirm
  ∧ slotPending
      (deviceSetupInputReceived appWithoutSetup (JsBool true)
         askedToConfirm).2
  ∧ slotPending
      (selectAndSetupDevice (appWith pickMode None None) deviceA []
         askedToConfirm).2.
Proof.
  destruct (slotPending_kept appWithoutSetup deviceA [] (JsBool true)
              "Erase device?" None (Fulfilled []) initialWorld)
    as [Hasked _].
  split; [exact Hasked|].
  destruct (slotPending_kept (appWith pickMode None None) deviceA []
              (JsBool true) "Erase device?" None (Fulfilled [])
              askedToConfirm) as [_ Hkept].
  destruct (Hkept Hasked) as (Hselect & Hinput & _).
  split; [exact Hinput | exact Hselect].
Defined.
